(** * Notebook reviewer: prompt assembly and truncation

    A shallow embedding of [main.py] (the MCP notebook reviewer) and the
    properties of its prompt generator.

    Python values are modelled as follows.
    - [str] is a list of characters ([pystr]); [len] is the list length
      as an unbounded integer ([Z]), as Python's [int] is.
    - Characters are 8-bit codes (Latin-1).  [strip] removes every
      character that Python's [str.isspace] accepts in that range;
      [capitalize] follows Python's case mapping on that range, but for
      the two letters whose title case lies outside it (the micro sign,
      181, and y with diaeresis, 255), which it leaves as they are.
    - The two module-level globals are the fields of [State]; a tool is a
      function from the state to its result string and the new state.
    - An exception is a value [Raise msg], where [msg] is what the
      handlers print with [{e}]. *)

From Stdlib Require Import ZArith Bool Ascii String List Lia DecimalString.
Import ListNotations.
Local Open Scope Z_scope.
Local Open Scope list_scope.

(* ================================================================== *)
(** ** Python strings *)

Definition pystr := list ascii.

(** A string literal of the source. *)
Definition lit (s : string) : pystr := list_ascii_of_string s.

(** The newline character, written [\n] in the source. *)
Definition NL : ascii := ascii_of_N 10.

(** [len(x)] *)
Definition len {A : Type} (l : list A) : Z := Z.of_nat (List.length l).

(** [x[:n]], for any integer [n] (a negative [n] counts from the end). *)
Definition slice_to {A : Type} (l : list A) (n : Z) : list A :=
  if n <? 0 then firstn (Z.to_nat (len l + n)) l
  else firstn (Z.to_nat n) l.

(** [x[i:]], for any integer [i] (a negative [i] counts from the end). *)
Definition slice_from {A : Type} (l : list A) (i : Z) : list A :=
  if i <? 0 then skipn (Z.to_nat (len l + i)) l
  else skipn (Z.to_nat i) l.

(** [sep.join(parts)] *)
Fixpoint join (sep : pystr) (parts : list pystr) : pystr :=
  match parts with
  | [] => []
  | [x] => x
  | x :: rest => x ++ sep ++ join sep rest
  end.

(** [s.split(c)] for a one-character separator [c]: never empty, one
    more piece than there are separators. *)
Fixpoint split (c : ascii) (s : pystr) : list pystr :=
  match s with
  | [] => [[]]
  | a :: s' =>
      if Ascii.eqb a c then [] :: split c s'
      else match split c s' with
           | [] => [[a]]
           | piece :: pieces => (a :: piece) :: pieces
           end
  end.

(** [str.isspace] on one character: tab, line feed, vertical tab, form
    feed, carriage return, the four separators 28..31, space, and in the
    upper half next-line (133) and no-break space (160). *)
Definition is_space (a : ascii) : bool :=
  let n := N_of_ascii a in
  ((9 <=? n) && (n <=? 13))%N || ((28 <=? n) && (n <=? 32))%N
  || (n =? 133)%N || (n =? 160)%N.

Fixpoint lstrip (s : pystr) : pystr :=
  match s with
  | [] => []
  | a :: s' => if is_space a then lstrip s' else s
  end.

Fixpoint rstrip (s : pystr) : pystr :=
  match s with
  | [] => []
  | a :: s' =>
      match rstrip s' with
      | [] => if is_space a then [] else [a]
      | kept => a :: kept
      end
  end.

(** [s.strip()] *)
Definition strip (s : pystr) : pystr := rstrip (lstrip s).

(** The title case of a character, which is a string: the small
    letters a..z and the accented small letters 224..254 (the division
    sign 247 is no letter) go to their capitals, 32 below, and the sharp
    s (223) goes to [Ss]. *)
Definition title_char (a : ascii) : pystr :=
  let n := N_of_ascii a in
  if ((97 <=? n) && (n <=? 122))%N then [ascii_of_N (n - 32)]
  else if (n =? 223)%N then lit "Ss"
  else if ((224 <=? n) && (n <=? 254) && negb (n =? 247))%N
       then [ascii_of_N (n - 32)]
  else [a].

(** The lower case of a character: the capitals A..Z and the accented
    capitals 192..222 (the multiplication sign 215 is no letter) go to
    their small letters, 32 above. *)
Definition lower_char (a : ascii) : ascii :=
  let n := N_of_ascii a in
  if ((65 <=? n) && (n <=? 90))%N
     || ((192 <=? n) && (n <=? 222) && negb (n =? 215))%N
  then ascii_of_N (n + 32) else a.

(** [s.capitalize()]: first character in title case, the rest in lower
    case. *)
Definition capitalize (s : pystr) : pystr :=
  match s with
  | [] => []
  | a :: s' => title_char a ++ map lower_char s'
  end.

(** [str(n)] for an integer, as an f-string formats it. *)
Definition str_of_int (n : Z) : pystr :=
  lit (NilZero.string_of_int (Z.to_int n)).

(** [a == b] on strings. *)
Fixpoint str_eqb (a b : pystr) : bool :=
  match a, b with
  | [], [] => true
  | x :: a', y :: b' => Ascii.eqb x y && str_eqb a' b'
  | _, _ => false
  end.

Fixpoint starts_with (p s : pystr) : bool :=
  match p, s with
  | [], _ => true
  | x :: p', y :: s' => Ascii.eqb x y && starts_with p' s'
  | _ :: _, [] => false
  end.

(** [sub in s] *)
Fixpoint contains (sub s : pystr) : bool :=
  starts_with sub s
  || match s with
     | [] => false
     | _ :: s' => contains sub s'
     end.

(* ================================================================== *)
(** ** Data model *)

(** A value of an output's [data] mapping: a string, or a list of
    strings (line-wrapped text). *)
Inductive MimeValue : Type :=
| MimeStr (s : pystr)
| MimeList (l : list pystr).

(** [output.data], a mapping from MIME type to value. *)
Definition MimeBundle := list (pystr * MimeValue).

(** [d[key]] when [key in d]. *)
Fixpoint dict_get (key : pystr) (d : MimeBundle) : option MimeValue :=
  match d with
  | [] => None
  | (k, v) :: d' => if str_eqb k key then Some v else dict_get key d'
  end.

(** A notebook output, by its [output_type]. *)
Inductive Output : Type :=
| Stream (text : pystr)
| ExecuteResult (data : MimeBundle)
| Error (ename evalue : pystr)
| DisplayData (data : MimeBundle).

(** One entry of [notebook_cells]. *)
Record Cell : Type := mkCell {
  type : pystr;
  source : pystr;
  outputs : list Output
}.

(** The in-memory state: the globals [guidelines] and [notebook_cells]. *)
Record State : Type := mkState {
  guidelines : list pystr;
  notebook_cells : list Cell
}.

(** Any argument a caller may pass. *)
Inductive PyObj : Type :=
| PyNone
| PyBool (b : bool)
| PyInt (n : Z)
| PyStr (s : pystr).

(* ================================================================== *)
(** ** Truncation configuration *)

Definition MAX_LINES_PER_CODE_CELL : Z := 15.
Definition MAX_CHARS_PER_MD_CELL : Z := 250.
Definition MAX_OUTPUT_CHARS_STREAM : Z := 100.
Definition MAX_OUTPUT_CHARS_EXEC_RESULT : Z := 150.
Definition MAX_ERROR_CHARS : Z := 100.
Definition MAX_TOTAL_NOTEBOOK_CHARS : Z := 150000.

(** The markers the truncated texts carry. *)
Definition CODE_MARKER_LINE (omitted : Z) : pystr :=
  lit "... [CODE TRUNCATED - " ++ str_of_int omitted
    ++ lit " lines omitted] ...".

Definition CODE_MARKER (omitted : Z) : pystr :=
  [NL] ++ CODE_MARKER_LINE omitted ++ [NL].

Definition MARKDOWN_MARKER : pystr :=
  [NL] ++ lit "... [MARKDOWN TRUNCATED] ...".

Definition STREAM_MARKER : pystr :=
  [NL] ++ lit "... [STREAM OUTPUT TRUNCATED - middle omitted] ..." ++ [NL].

Definition EXEC_RESULT_MARKER : pystr :=
  [NL] ++ lit "... [EXEC RESULT TRUNCATED - middle omitted] ..." ++ [NL].

Definition ERROR_MARKER : pystr :=
  [NL] ++ lit "... [ERROR TRUNCATED] ...".

Definition SKIP_MARKER : pystr :=
  lit "[Remaining cell content and subsequent cells skipped due to overall notebook content length limit.]".

(* ================================================================== *)
(** ** Rendering one cell *)

(** [f"# Cell {idx+1} - {cell['type'].capitalize()}\n"] *)
Definition cell_header (idx : Z) (cell : Cell) : pystr :=
  lit "# Cell " ++ str_of_int (idx + 1) ++ lit " - "
    ++ capitalize (type cell) ++ [NL].

(** The lines kept before and after the omitted middle of a code source. *)
Definition head_lines_len : Z := MAX_LINES_PER_CODE_CELL / 2.
Definition tail_lines_len : Z := MAX_LINES_PER_CODE_CELL - head_lines_len.

(** The source of a code cell, cut to its first and last lines when it
    has more than [MAX_LINES_PER_CODE_CELL] lines. *)
Definition trimmed_code_source (source : pystr) : pystr :=
  let lines := split NL source in
  if len lines >? MAX_LINES_PER_CODE_CELL then
    join [NL] (slice_to lines head_lines_len)
      ++ CODE_MARKER (len lines - MAX_LINES_PER_CODE_CELL)
      ++ join [NL] (slice_from lines (- tail_lines_len))
  else source.

(** The source of a markdown cell, cut to a prefix. *)
Definition trimmed_markdown_source (source : pystr) : pystr :=
  if len source >? MAX_CHARS_PER_MD_CELL then
    slice_to source MAX_CHARS_PER_MD_CELL ++ MARKDOWN_MARKER
  else source.

(** [cell_parts]: the trimmed source of a code or markdown cell, nothing
    for a cell of another type. *)
Definition cell_parts (cell : Cell) : list pystr :=
  let source := strip (source cell) in
  if str_eqb (type cell) (lit "code") then [trimmed_code_source source]
  else if str_eqb (type cell) (lit "markdown") then
    [trimmed_markdown_source source]
  else [].

(** The head and tail kept by the character truncation of an output
    text, for a budget [max] and a marker [marker]. *)
Definition head_len (max : Z) : Z := max / 2.

Definition tail_len (max : Z) (marker : pystr) : Z :=
  let tail_len := max - head_len max - len marker in
  if tail_len <? 0 then 0 else tail_len.

Definition output_head (max : Z) (output_data : pystr) : pystr :=
  slice_to output_data (head_len max).

Definition output_tail (max : Z) (marker output_data : pystr) : pystr :=
  slice_from output_data (len output_data - tail_len max marker).

(** [trimmed_output]: head, marker, tail. *)
Definition trimmed_output (max : Z) (marker output_data : pystr) : pystr :=
  output_head max output_data ++ marker ++ output_tail max marker output_data.

(** The text of a stream or result output as it is shown. *)
Definition truncate_output (max : Z) (marker output_data : pystr) : pystr :=
  if len output_data >? max then trimmed_output max marker output_data
  else output_data.

(** The text of an error output: name and value on two lines. *)
Definition error_text (ename evalue : pystr) : pystr :=
  lit "Error Type: " ++ ename ++ [NL] ++ lit "Error Value: " ++ evalue.

Definition truncate_error (output_data : pystr) : pystr :=
  if len output_data >? MAX_ERROR_CHARS then
    slice_to output_data MAX_ERROR_CHARS ++ ERROR_MARKER
  else output_data.

(** A label, then the text between two fences. *)
Definition fenced (label output_data : pystr) : pystr :=
  label ++ [NL] ++ lit "```" ++ [NL] ++ output_data ++ [NL] ++ lit "```".

(** [output.data['text/plain']] as one string. *)
Definition plain_text (v : MimeValue) : pystr :=
  match v with
  | MimeStr s => s
  | MimeList l => join [NL] l
  end.

Definition IMAGE_PLACEHOLDER : pystr :=
  lit "Output (image/plot): [Image data omitted. Refer to code for generation logic.]".

(** What one output appends to [output_text_parts]: one part or none. *)
Definition render_output (output : Output) : list pystr :=
  match output with
  | Stream text =>
      [fenced (lit "Output (stream):")
         (truncate_output MAX_OUTPUT_CHARS_STREAM STREAM_MARKER text)]
  | ExecuteResult data =>
      match dict_get (lit "text/plain") data with
      | Some v =>
          [fenced (lit "Output (result):")
             (truncate_output MAX_OUTPUT_CHARS_EXEC_RESULT EXEC_RESULT_MARKER
                (plain_text v))]
      | None =>
          match dict_get (lit "image/png") data with
          | Some _ => [IMAGE_PLACEHOLDER]
          | None => []
          end
      end
  | Error ename evalue =>
      [fenced (lit "Output (error):")
         (truncate_error (error_text ename evalue))]
  | DisplayData _ => []
  end.

(** [output_text_parts]: the outputs of a code cell, in order. *)
Definition output_text_parts (cell : Cell) : list pystr :=
  if str_eqb (type cell) (lit "code") then
    flat_map render_output (outputs cell)
  else [].

(** [cell_content] *)
Definition cell_content (cell : Cell) : pystr :=
  join [NL; NL] (cell_parts cell ++ output_text_parts cell).

(* ================================================================== *)
(** ** Assembling the notebook content *)

(** The block a cell contributes when it fits, and when it does not. *)
Definition full_block (idx : Z) (cell : Cell) : pystr :=
  cell_header idx cell ++ cell_content cell.

Definition skipped_block (idx : Z) (cell : Cell) : pystr :=
  cell_header idx cell ++ SKIP_MARKER.

(** The loop over [enumerate(notebook_cells)], from index [idx] on, with
    the blocks appended so far and the running character total.  The
    first cell that would pass the limit leaves its header and the skip
    marker, and ends the loop. *)
Fixpoint assemble_loop (idx : Z) (cells : list Cell)
    (trimmed_cells_content : list pystr) (current_total_notebook_chars : Z)
    : list pystr :=
  match cells with
  | [] => trimmed_cells_content
  | cell :: rest =>
      let header := cell_header idx cell in
      let content := cell_content cell in
      if current_total_notebook_chars + len header + len content
           >? MAX_TOTAL_NOTEBOOK_CHARS
      then trimmed_cells_content ++ [header ++ SKIP_MARKER]
      else assemble_loop (idx + 1) rest
             (trimmed_cells_content ++ [header ++ content])
             (current_total_notebook_chars + len header + len content)
  end.

Definition trimmed_cells_content (cells : list Cell) : list pystr :=
  assemble_loop 0 cells [] 0.

Definition final_notebook_content_str (cells : list Cell) : pystr :=
  join [NL; NL] (trimmed_cells_content cells).

(* ================================================================== *)
(** ** Composing the prompt *)

Definition PREAMBLE : pystr :=
  lit "Below is the content of a Jupyter notebook. Please review this notebook based on the specific guidelines provided afterwards."
    ++ [NL]
    ++ lit "Note that some code cells, markdown cells, or their outputs may be truncated due to length limits."
    ++ [NL; NL].

Definition guideline_line (i : Z) (guideline : pystr) : pystr :=
  lit "Guideline " ++ str_of_int i ++ lit ": " ++ guideline ++ [NL].

(** The loop over [enumerate(guidelines, 1)], from number [i] on. *)
Fixpoint guidelines_loop (i : Z) (gs : list pystr) (prompt : pystr) : pystr :=
  match gs with
  | [] => prompt
  | guideline :: rest =>
      guidelines_loop (i + 1) rest (prompt ++ guideline_line i guideline)
  end.

Definition ANALYSIS_INSTRUCTIONS : pystr :=
  lit "--- ANALYSIS INSTRUCTIONS ---" ++ [NL]
    ++ lit "Please evaluate the notebook content based on the guidelines. For each guideline, state whether it is met or not, and provide specific, constructive feedback and reasoning. Cite specific cell numbers where relevant."
    ++ [NL]
    ++ lit "Example feedback format:" ++ [NL]
    ++ lit "Guideline X: [Met/Not Met]" ++ [NL]
    ++ lit "Feedback: [Your specific feedback, referencing relevant cell numbers]"
    ++ [NL; NL]
    ++ lit "--- END ANALYSIS INSTRUCTIONS ---" ++ [NL].

(** The prompt before the final [strip]. *)
Definition prompt (gs : list pystr) (cells : list Cell) : pystr :=
  let prompt := PREAMBLE in
  let prompt := prompt ++ lit "--- START NOTEBOOK CONTENT ---" ++ [NL] in
  let prompt := prompt ++ final_notebook_content_str cells in
  let prompt := prompt ++ [NL] ++ lit "--- END NOTEBOOK CONTENT ---" ++ [NL; NL] in
  let prompt := prompt ++ lit "--- REVIEW GUIDELINES ---" ++ [NL] in
  let prompt := guidelines_loop 1 gs prompt in
  let prompt := prompt ++ lit "--- END REVIEW GUIDELINES ---" ++ [NL; NL] in
  prompt ++ ANALYSIS_INSTRUCTIONS.

Definition NO_GUIDELINES : pystr :=
  lit "No guidelines loaded. Use `load_guidelines()` first.".

Definition NO_NOTEBOOK : pystr :=
  lit "No notebook loaded. Use `load_notebook()` or `load_notebook_content()` first.".

(** The tool [get_prompt_for_claude], called with any positional
    arguments [args] and keyword arguments [kwargs]: it reads the state
    and leaves it as it is, so only the returned string is modelled. *)
Definition get_prompt_for_claude (args : list PyObj)
    (kwargs : list (pystr * PyObj)) (st : State) : pystr :=
  match guidelines st with
  | [] => NO_GUIDELINES
  | _ :: _ =>
      match notebook_cells st with
      | [] => NO_NOTEBOOK
      | _ :: _ => strip (prompt (guidelines st) (notebook_cells st))
      end
  end.

(* ================================================================== *)
(** ** Loading a notebook from a JSON string *)

(** The outcome of a call that may raise. *)
Inductive Exc (A : Type) : Type :=
| Return (a : A)
| Raise (msg : pystr).
Arguments Return {A} a.
Arguments Raise {A} msg.

Definition bind {A B : Type} (m : Exc A) (f : A -> Exc B) : Exc B :=
  match m with
  | Return a => f a
  | Raise msg => Raise msg
  end.

Notation "x <- m ;; k" := (bind m (fun x => k))
  (at level 61, m at next level, right associativity).

(** The value of a cell's [source] attribute: a string, or a value of
    another type (JSON null, a number, an object), on which [.strip()]
    raises an [AttributeError] whose message is [strip_error] (for null,
    ['NoneType' object has no attribute 'strip']). *)
Inductive NbSource : Type :=
| SourceStr (s : pystr)
| SourceOther (strip_error : pystr).

(** A cell of the parsed notebook: an attribute that is absent is
    [None]. *)
Record NbCell : Type := mkNbCell {
  nb_cell_type : option pystr;
  nb_source : option NbSource;
  nb_outputs : option (list Output)
}.

(** [cell.name]: reading an absent attribute raises [AttributeError],
    whose message is the attribute's name. *)
Definition getattr {A : Type} (name : string) (field : option A) : Exc A :=
  match field with
  | Some v => Return v
  | None => Raise (lit name)
  end.

(** [value.strip()] on the value of a [source] attribute. *)
Definition call_strip (value : NbSource) : Exc pystr :=
  match value with
  | SourceStr s => Return (strip s)
  | SourceOther strip_error => Raise strip_error
  end.

(** One element of the list comprehension: the type is read first, then
    the source and its [strip], then the outputs. *)
Definition convert_cell (cell : NbCell) : Exc Cell :=
  t <- getattr "cell_type" (nb_cell_type cell) ;;
  value <- getattr "source" (nb_source cell) ;;
  s <- call_strip value ;;
  Return (mkCell t s
            (match nb_outputs cell with Some o => o | None => [] end)).

Fixpoint convert_cells (cells : list NbCell) : Exc (list Cell) :=
  match cells with
  | [] => Return []
  | cell :: rest =>
      c <- convert_cell cell ;;
      cs <- convert_cells rest ;;
      Return (c :: cs)
  end.

Section Loader.

(** [nbformat.reads(json_string, as_version=4)], the cells of the
    notebook it returns or the exception it raises. *)
Variable nbformat_reads : pystr -> Exc (list NbCell).

(** The tool [load_notebook_content]: the result string and the state
    it leaves.  [notebook_cells.clear()] runs once the parse has
    returned, before the comprehension is evaluated. *)
Definition load_notebook_content (json_string : pystr) (st : State)
    : pystr * State :=
  match nbformat_reads json_string with
  | Raise e => (lit "Failed to parse notebook JSON: " ++ e, st)
  | Return nb_cells =>
      let st := mkState (guidelines st) [] in
      match convert_cells nb_cells with
      | Raise e => (lit "Failed to parse notebook JSON: " ++ e, st)
      | Return cells =>
          let st := mkState (guidelines st) (notebook_cells st ++ cells) in
          (str_of_int (len (notebook_cells st))
             ++ lit " notebook cell(s) loaded from pasted content.", st)
      end
  end.

End Loader.

(* ================================================================== *)
(** ** Loading a notebook from a file *)

Section FileLoader.

(** [nbformat.read(path, as_version=4)], the cells of the notebook it
    returns or the exception it raises. *)
Variable nbformat_read : pystr -> Exc (list NbCell).

(** The tool [load_notebook]: the global is bound to the new list once
    the comprehension has been evaluated, so an exception from either
    step leaves the old list in place. *)
Definition load_notebook (path : pystr) (st : State) : pystr * State :=
  match (nb_cells <- nbformat_read path ;; convert_cells nb_cells) with
  | Raise e => (lit "Error loading notebook: " ++ e, st)
  | Return cells =>
      let st := mkState (guidelines st) cells in
      (str_of_int (len (notebook_cells st))
         ++ lit " notebook cell(s) loaded.", st)
  end.

End FileLoader.

(* ================================================================== *)
(** ** Loading the guidelines *)

(** [s.endswith(suffix)] *)
Definition ends_with (suffix s : pystr) : bool :=
  (len suffix <=? len s)
  && str_eqb (slice_from s (len s - len suffix)) suffix.

(** [column.dropna().tolist()]: the entries that are not missing, in
    their order.  A missing entry is [None]. *)
Fixpoint dropna (column : list (option pystr)) : list pystr :=
  match column with
  | [] => []
  | Some v :: rest => v :: dropna rest
  | None :: rest => dropna rest
  end.

Section GuidelineLoader.

(** The table read from a file, and the two readers of pandas. *)
Variable DataFrame : Type.
Variable read_excel : pystr -> Exc DataFrame.
Variable read_csv : pystr -> Exc DataFrame.

(** [df.iloc[:, 0]]: the first column, or the exception raised when
    there is none. *)
Variable first_column : DataFrame -> Exc (list (option pystr)).

(** The first column of the file at [path], read as a spreadsheet when
    the path ends with [.xlsx] and as CSV otherwise. *)
Definition read_first_column (path : pystr) : Exc (list (option pystr)) :=
  df <- (if ends_with (lit ".xlsx") path then read_excel path
         else read_csv path) ;;
  first_column df.

(** The tool [load_guidelines]. *)
Definition load_guidelines (path : pystr) (st : State) : pystr * State :=
  match read_first_column path with
  | Raise e => (lit "Error loading guidelines: " ++ e, st)
  | Return column =>
      let st := mkState (dropna column) (notebook_cells st) in
      (str_of_int (len (guidelines st)) ++ lit " guideline(s) loaded.", st)
  end.

End GuidelineLoader.

(* ================================================================== *)
(** ** Reference definitions for the statements *)

(** The blocks of cells that are all included, numbered from [idx]. *)
Fixpoint full_blocks (idx : Z) (cells : list Cell) : list pystr :=
  match cells with
  | [] => []
  | cell :: rest => full_block idx cell :: full_blocks (idx + 1) rest
  end.

(** What the running total counts for [cells], numbered from [idx]:
    header and content of each, and no separator. *)
Fixpoint total_chars (idx : Z) (cells : list Cell) : Z :=
  match cells with
  | [] => 0
  | cell :: rest =>
      len (cell_header idx cell) + len (cell_content cell)
        + total_chars (idx + 1) rest
  end.

(** The guideline lines numbered from [i], in the order of the list. *)
Fixpoint numbered_guidelines (i : Z) (gs : list pystr) : list pystr :=
  match gs with
  | [] => []
  | guideline :: rest =>
      guideline_line i guideline :: numbered_guidelines (i + 1) rest
  end.

(** The render of a cell with no truncation rule at all: the stripped
    source of a code or markdown cell, then for a code cell each output
    in its fenced block with its whole text. *)
Definition untruncated_parts (cell : Cell) : list pystr :=
  if str_eqb (type cell) (lit "code") then [strip (source cell)]
  else if str_eqb (type cell) (lit "markdown") then [strip (source cell)]
  else [].

Definition untruncated_output (output : Output) : list pystr :=
  match output with
  | Stream text => [fenced (lit "Output (stream):") text]
  | ExecuteResult data =>
      match dict_get (lit "text/plain") data with
      | Some v => [fenced (lit "Output (result):") (plain_text v)]
      | None =>
          match dict_get (lit "image/png") data with
          | Some _ => [IMAGE_PLACEHOLDER]
          | None => []
          end
      end
  | Error ename evalue =>
      [fenced (lit "Output (error):") (error_text ename evalue)]
  | DisplayData _ => []
  end.

Definition untruncated_content (cell : Cell) : pystr :=
  join [NL; NL]
    (untruncated_parts cell
       ++ (if str_eqb (type cell) (lit "code")
           then flat_map untruncated_output (outputs cell) else [])).

(** The source is at or below the threshold of its cell type: lines for
    code, characters for markdown. *)
Definition source_within_threshold (cell : Cell) : bool :=
  if str_eqb (type cell) (lit "code") then
    len (split NL (source cell)) <=? MAX_LINES_PER_CODE_CELL
  else if str_eqb (type cell) (lit "markdown") then
    len (source cell) <=? MAX_CHARS_PER_MD_CELL
  else true.

(** The text of an output is at or below the threshold of its type. *)
Definition output_within_threshold (output : Output) : bool :=
  match output with
  | Stream text => len text <=? MAX_OUTPUT_CHARS_STREAM
  | ExecuteResult data =>
      match dict_get (lit "text/plain") data with
      | Some v => len (plain_text v) <=? MAX_OUTPUT_CHARS_EXEC_RESULT
      | None => true
      end
  | Error ename evalue => len (error_text ename evalue) <=? MAX_ERROR_CHARS
  | DisplayData _ => true
  end.

(** Sample inputs. *)

(** A text of [n] letters. *)
Definition letters (n : Z) : pystr := repeat "a"%char (Z.to_nat n).

(** Twenty lines, [x1] to [x20]. *)
Definition twenty_lines : pystr :=
  join [NL] (map (fun i => lit "x" ++ str_of_int (Z.of_nat i)) (seq 1 20)).

(** A code cell of one long line that fills the budget with its header,
    followed by a small code cell. *)
Definition filling_cell : Cell := mkCell (lit "code") (letters 149984) [].
Definition small_cell : Cell := mkCell (lit "code") (lit "x") [].

(** The characters of a list of strings, separators apart. *)
Fixpoint sum_len (parts : list pystr) : Z :=
  match parts with
  | [] => 0
  | x :: rest => len x + sum_len rest
  end.

(** The first [n] and the last [n] items of a list. *)
Definition first_n {A : Type} (n : Z) (l : list A) : list A :=
  firstn (Z.to_nat n) l.

Definition last_n {A : Type} (n : Z) (l : list A) : list A :=
  skipn (List.length l - Z.to_nat n) l.

(** An output that has no rendering: a display_data output, or a
    result with neither a [text/plain] nor an [image/png] entry. *)
Definition silent_output (output : Output) : bool :=
  match output with
  | DisplayData _ => true
  | ExecuteResult data =>
      match dict_get (lit "text/plain") data,
            dict_get (lit "image/png") data with
      | None, None => true
      | _, _ => false
      end
  | Stream _ | Error _ _ => false
  end.

(* ================================================================== *)
(** * Properties *)

(** ** Lengths and slices *)

Lemma len_nil (A : Type) : len (@nil A) = 0.
Proof. reflexivity. Qed.

Lemma len_cons (A : Type) (a : A) (l : list A) : len (a :: l) = 1 + len l.
Proof. unfold len; cbn [List.length]; lia. Qed.

Lemma len_app (A : Type) (l1 l2 : list A) : len (l1 ++ l2) = len l1 + len l2.
Proof. unfold len; rewrite length_app; lia. Qed.

Lemma len_nonneg (A : Type) (l : list A) : 0 <= len l.
Proof. unfold len; lia. Qed.

Lemma len_zero_nil (A : Type) (l : list A) : len l = 0 -> l = [].
Proof. destruct l; [reflexivity | rewrite len_cons; pose proof (len_nonneg A l); lia]. Qed.

Lemma slice_to_firstn (A : Type) (l : list A) (n : Z) :
  0 <= n -> slice_to l n = firstn (Z.to_nat n) l.
Proof.
  intros Hn; unfold slice_to.
  destruct (Z.ltb_spec n 0); [lia | reflexivity].
Qed.

Lemma slice_from_skipn (A : Type) (l : list A) (i : Z) :
  0 <= i -> slice_from l i = skipn (Z.to_nat i) l.
Proof.
  intros Hi; unfold slice_from.
  destruct (Z.ltb_spec i 0); [lia | reflexivity].
Qed.

Lemma slice_from_last (A : Type) (l : list A) (k : Z) :
  0 < k <= len l -> slice_from l (- k) = skipn (Z.to_nat (len l - k)) l.
Proof.
  intros Hk; unfold slice_from.
  destruct (Z.ltb_spec (- k) 0); [| lia].
  f_equal; lia.
Qed.

Lemma len_firstn (A : Type) (l : list A) (n : Z) :
  0 <= n <= len l -> len (firstn (Z.to_nat n) l) = n.
Proof.
  unfold len; intros Hn; rewrite length_firstn; lia.
Qed.

Lemma len_skipn (A : Type) (l : list A) (n : Z) :
  0 <= n <= len l -> len (skipn (Z.to_nat n) l) = len l - n.
Proof.
  unfold len; intros Hn; rewrite length_skipn; lia.
Qed.

Lemma len_slice_to (A : Type) (l : list A) (n : Z) :
  0 <= n <= len l -> len (slice_to l n) = n.
Proof.
  intros Hn; rewrite slice_to_firstn by lia; now apply len_firstn.
Qed.

Lemma len_slice_from (A : Type) (l : list A) (i : Z) :
  0 <= i <= len l -> len (slice_from l i) = len l - i.
Proof.
  intros Hi; rewrite slice_from_skipn by lia; now apply len_skipn.
Qed.

Lemma slice_from_len (A : Type) (l : list A) : slice_from l (len l) = [].
Proof.
  rewrite slice_from_skipn by apply len_nonneg.
  unfold len; rewrite Nat2Z.id; apply skipn_all.
Qed.

(** ** Joining *)

Lemma join_cons (sep x : pystr) (rest : list pystr) :
  rest <> [] -> join sep (x :: rest) = x ++ sep ++ join sep rest.
Proof. destruct rest; [congruence | reflexivity]. Qed.

Lemma join_app (sep : pystr) (l1 l2 : list pystr) :
  l1 <> [] -> l2 <> [] ->
  join sep (l1 ++ l2) = join sep l1 ++ sep ++ join sep l2.
Proof.
  induction l1 as [| x l1 IH]; intros H1 H2; [congruence |].
  destruct l1 as [| y l1].
  - cbn [app]; now rewrite join_cons.
  - change (join sep ((x :: y :: l1) ++ l2))
      with (x ++ sep ++ join sep ((y :: l1) ++ l2)).
    change (join sep (x :: y :: l1)) with (x ++ sep ++ join sep (y :: l1)).
    rewrite IH by (discriminate || assumption).
    now rewrite <- !app_assoc.
Qed.

Lemma len_join (sep : pystr) (parts : list pystr) :
  parts <> [] ->
  len (join sep parts) = sum_len parts + len sep * (len parts - 1).
Proof.
  induction parts as [| x rest IH]; intros Hne; [congruence |].
  destruct rest as [| y rest].
  - cbn [join sum_len]; rewrite len_cons, len_nil; lia.
  - rewrite join_cons by discriminate.
    rewrite !len_app, IH by discriminate.
    cbn [sum_len]; rewrite !len_cons; lia.
Qed.

Lemma sum_len_app (l1 l2 : list pystr) :
  sum_len (l1 ++ l2) = sum_len l1 + sum_len l2.
Proof. induction l1; cbn [app sum_len]; lia. Qed.

(** ** The assembling loop *)

Lemma total_chars_nonneg (cells : list Cell) (idx : Z) :
  0 <= total_chars idx cells.
Proof.
  revert idx; induction cells as [| c rest IH]; intros idx; cbn [total_chars].
  - lia.
  - pose proof (IH (idx + 1)).
    pose proof (len_nonneg _ (cell_header idx c)).
    pose proof (len_nonneg _ (cell_content c)); lia.
Qed.

Lemma sum_len_full_blocks (cells : list Cell) (idx : Z) :
  sum_len (full_blocks idx cells) = total_chars idx cells.
Proof.
  revert idx; induction cells as [| c rest IH]; intros idx;
    cbn [full_blocks sum_len total_chars]; [reflexivity |].
  unfold full_block; rewrite len_app, IH; lia.
Qed.

Lemma len_full_blocks (cells : list Cell) (idx : Z) :
  len (full_blocks idx cells) = len cells.
Proof.
  revert idx; induction cells as [| c rest IH]; intros idx;
    cbn [full_blocks]; [reflexivity |].
  now rewrite !len_cons, IH.
Qed.

(** While the total stays within the limit the loop appends full
    blocks and carries on with the next index. *)
Lemma assemble_loop_fits (pre rest : list Cell) (idx : Z)
    (acc : list pystr) (tot : Z) :
  tot + total_chars idx pre <= MAX_TOTAL_NOTEBOOK_CHARS ->
  assemble_loop idx (pre ++ rest) acc tot
  = assemble_loop (idx + len pre) rest (acc ++ full_blocks idx pre)
      (tot + total_chars idx pre).
Proof.
  revert idx acc tot; induction pre as [| c pre IH]; intros idx acc tot Hfit.
  - cbn [app full_blocks total_chars]; rewrite len_nil, app_nil_r.
    now rewrite !Z.add_0_r.
  - cbn [total_chars] in Hfit.
    pose proof (total_chars_nonneg pre (idx + 1)) as Hpos.
    cbn [app assemble_loop].
    destruct (Z.gtb_spec (tot + len (cell_header idx c) + len (cell_content c))
                MAX_TOTAL_NOTEBOOK_CHARS) as [Hover | _]; [lia |].
    rewrite IH by lia.
    cbn [full_blocks total_chars]; unfold full_block.
    rewrite len_cons, <- app_assoc; cbn [app].
    replace (idx + 1 + len pre) with (idx + (1 + len pre)) by lia.
    f_equal; lia.
Qed.

(** The two ways the loop can end: every cell fitted, or a first cell
    did not. *)
Lemma assemble_loop_shape (cells : list Cell) (idx : Z)
    (acc : list pystr) (tot : Z) :
  tot <= MAX_TOTAL_NOTEBOOK_CHARS ->
  (tot + total_chars idx cells <= MAX_TOTAL_NOTEBOOK_CHARS
   /\ assemble_loop idx cells acc tot = acc ++ full_blocks idx cells)
  \/ (exists pre cell post,
        cells = pre ++ cell :: post
        /\ tot + total_chars idx pre <= MAX_TOTAL_NOTEBOOK_CHARS
        /\ tot + total_chars idx pre
             + len (cell_header (idx + len pre) cell)
             + len (cell_content cell) > MAX_TOTAL_NOTEBOOK_CHARS
        /\ assemble_loop idx cells acc tot
           = acc ++ full_blocks idx pre
               ++ [skipped_block (idx + len pre) cell]).
Proof.
  revert idx acc tot; induction cells as [| c rest IH]; intros idx acc tot Htot.
  - left; cbn [total_chars assemble_loop full_blocks].
    rewrite app_nil_r; split; [lia | reflexivity].
  - cbn [assemble_loop].
    destruct (Z.gtb_spec (tot + len (cell_header idx c) + len (cell_content c))
                MAX_TOTAL_NOTEBOOK_CHARS) as [Hover | Hfit].
    + right; exists [], c, rest.
      cbn [app total_chars full_blocks]; rewrite len_nil, !Z.add_0_r.
      unfold skipped_block; repeat split; try lia; reflexivity.
    + destruct (IH (idx + 1) (acc ++ [cell_header idx c ++ cell_content c])
                  (tot + len (cell_header idx c) + len (cell_content c)) Hfit)
        as [[Hall Heq] | (pre & cell & post & Hcells & Hpre & Hover & Heq)].
      * left; cbn [total_chars full_blocks]; unfold full_block.
        rewrite Heq, <- app_assoc; split; [lia | reflexivity].
      * right; exists (c :: pre), cell, post.
        cbn [app total_chars full_blocks]; unfold full_block.
        rewrite len_cons, Heq, <- app_assoc, Hcells.
        replace (idx + (1 + len pre)) with (idx + 1 + len pre) by lia.
        repeat split; try lia; reflexivity.
Qed.

(** The running total only grows: when it is within the limit after
    [pre ++ rest] it was within the limit after [pre]. *)
Lemma total_chars_app (pre rest : list Cell) (idx : Z) :
  total_chars idx (pre ++ rest)
  = total_chars idx pre + total_chars (idx + len pre) rest.
Proof.
  revert idx; induction pre as [| c pre IH]; intros idx;
    cbn [app total_chars].
  - now rewrite len_nil, Z.add_0_r.
  - rewrite IH, len_cons.
    replace (idx + 1 + len pre) with (idx + (1 + len pre)) by lia; lia.
Qed.

Lemma total_chars_prefix_le (pre rest : list Cell) (idx : Z) :
  total_chars idx pre <= total_chars idx (pre ++ rest).
Proof.
  rewrite total_chars_app.
  pose proof (total_chars_nonneg rest (idx + len pre)); lia.
Qed.

Lemma nth_error_full_blocks (cells : list Cell) (idx : Z) (k : nat) (c : Cell) :
  nth_error cells k = Some c ->
  nth_error (full_blocks idx cells) k = Some (full_block (idx + Z.of_nat k) c).
Proof.
  revert idx k; induction cells as [| c0 rest IH]; intros idx k Hk.
  - destruct k; discriminate.
  - destruct k as [| k]; cbn [nth_error full_blocks] in *.
    + injection Hk as ->; now rewrite Z.add_0_r.
    + rewrite (IH (idx + 1) k Hk); do 2 f_equal; lia.
Qed.

(** C1.  When the cells before [cell] all fit (the running total after
    them, which only grows, is within [MAX_TOTAL_NOTEBOOK_CHARS]) and the
    header and content of [cell] would push the total over the limit,
    the assembler emits the full blocks of the cells before, each with
    its own number and in the original order, then the header of [cell]
    followed by the skip marker, and nothing for the cells after
    [cell], whatever they are. *)
Theorem overflowing_cell_ends_assembly (pre post : list Cell) (cell : Cell) :
  total_chars 0 pre <= MAX_TOTAL_NOTEBOOK_CHARS ->
  total_chars 0 pre + len (cell_header (len pre) cell)
    + len (cell_content cell) > MAX_TOTAL_NOTEBOOK_CHARS ->
  trimmed_cells_content (pre ++ cell :: post)
  = full_blocks 0 pre
      ++ [cell_header (len pre) cell
            ++ lit "[Remaining cell content and subsequent cells skipped due to overall notebook content length limit.]"]
  /\ final_notebook_content_str (pre ++ cell :: post)
     = join [NL; NL] (full_blocks 0 pre ++ [cell_header (len pre) cell ++ SKIP_MARKER])
  /\ len (trimmed_cells_content (pre ++ cell :: post)) = len pre + 1
  /\ (forall k c, nth_error pre k = Some c ->
        nth_error (trimmed_cells_content (pre ++ cell :: post)) k
        = Some (cell_header (Z.of_nat k) c ++ cell_content c)).
Proof.
  intros Hpre Hover.
  assert (Heq : trimmed_cells_content (pre ++ cell :: post)
                = full_blocks 0 pre ++ [cell_header (len pre) cell ++ SKIP_MARKER]).
  { unfold trimmed_cells_content.
    rewrite assemble_loop_fits by lia.
    cbn [assemble_loop app]; rewrite !Z.add_0_l.
    destruct (Z.gtb_spec (total_chars 0 pre + len (cell_header (len pre) cell)
                            + len (cell_content cell))
                MAX_TOTAL_NOTEBOOK_CHARS) as [_ | Hfit]; [reflexivity | lia]. }
  split; [exact Heq |].
  split; [unfold final_notebook_content_str; now rewrite Heq |].
  split.
  - rewrite Heq, len_app, len_full_blocks, len_cons, len_nil; lia.
  - intros k c Hk; rewrite Heq.
    rewrite nth_error_app1.
    + now rewrite (nth_error_full_blocks pre 0 k c Hk).
    + apply nth_error_Some; rewrite (nth_error_full_blocks pre 0 k c Hk).
      discriminate.
Qed.

(** C2, as amended.  The length of the assembled notebook content is at
    most the budget, plus the header of one cell of the sequence, plus
    the skip marker, plus the two characters of each blank-line
    separator between the emitted blocks. *)
Theorem assembled_length_bound (cells : list Cell) :
  cells <> [] ->
  exists k cell,
    nth_error cells k = Some cell
    /\ len (final_notebook_content_str cells)
       <= MAX_TOTAL_NOTEBOOK_CHARS + len (cell_header (Z.of_nat k) cell)
          + len SKIP_MARKER
          + 2 * (len (trimmed_cells_content cells) - 1).
Proof.
  intros Hne.
  unfold final_notebook_content_str, trimmed_cells_content.
  destruct (assemble_loop_shape cells 0 [] 0) as
    [[Hall Heq] | (pre & cell & post & Hcells & Hpre & Hover & Heq)];
    [unfold MAX_TOTAL_NOTEBOOK_CHARS; lia | |].
  - destruct cells as [| c rest]; [congruence |].
    exists 0%nat, c; split; [reflexivity |].
    rewrite Heq; cbn [app].
    rewrite len_join by discriminate.
    rewrite sum_len_full_blocks.
    change (len [NL; NL]) with 2.
    pose proof (len_nonneg _ (cell_header (Z.of_nat 0) c)).
    pose proof (len_nonneg _ SKIP_MARKER); lia.
  - exists (List.length pre), cell; split.
    + rewrite Hcells, nth_error_app2, Nat.sub_diag by lia; reflexivity.
    + rewrite Heq; cbn [app].
      rewrite len_join by (destruct (full_blocks 0 pre); discriminate).
      rewrite sum_len_app, sum_len_full_blocks.
      cbn [sum_len]; unfold skipped_block; rewrite len_app.
      change (len [NL; NL]) with 2.
      rewrite Z.add_0_l; fold (len pre); lia.
Qed.

Lemma overflowing_cell_ends_assembly_witness :
  trimmed_cells_content ([filling_cell] ++ small_cell :: [small_cell])
  = [full_block 0 filling_cell; cell_header 1 small_cell ++ SKIP_MARKER].
Proof.
  apply (overflowing_cell_ends_assembly [filling_cell] [small_cell] small_cell).
  - now vm_compute.
  - now vm_compute.
Defined.

Lemma assembled_length_bound_witness :
  exists k cell,
    nth_error [filling_cell; small_cell] k = Some cell
    /\ len (final_notebook_content_str [filling_cell; small_cell])
       <= MAX_TOTAL_NOTEBOOK_CHARS + len (cell_header (Z.of_nat k) cell)
          + len SKIP_MARKER
          + 2 * (len (trimmed_cells_content [filling_cell; small_cell]) - 1).
Proof.
  apply (assembled_length_bound [filling_cell; small_cell]); discriminate.
Defined.

(** On the filling cell followed by a small cell the bound is met with
    equality: the budget, the header of the second cell, the skip
    marker and one separator. *)
Lemma two_cell_content_meets_bound :
  len (trimmed_cells_content [filling_cell; small_cell]) = 2
  /\ len (final_notebook_content_str [filling_cell; small_cell])
     = MAX_TOTAL_NOTEBOOK_CHARS + len (cell_header 1 small_cell)
       + len SKIP_MARKER
       + 2 * (len (trimmed_cells_content [filling_cell; small_cell]) - 1).
Proof. split; vm_compute; reflexivity. Qed.

(** C2, as stated, fails: a code cell of one line of 149984 letters
    fills the budget exactly with its 16-character header, the next cell
    leaves its header and the skip marker, and the separator between the
    two blocks takes the assembled content two characters past the
    budget plus one header plus the marker, whichever header is
    counted. *)
Lemma assembled_length_exceeds_header_and_marker :
  len (final_notebook_content_str [filling_cell; small_cell]) = 150117
  /\ ~ (exists k cell,
          nth_error [filling_cell; small_cell] k = Some cell
          /\ len (final_notebook_content_str [filling_cell; small_cell])
             <= MAX_TOTAL_NOTEBOOK_CHARS
                + len (cell_header (Z.of_nat k) cell) + len SKIP_MARKER).
Proof.
  assert (Hlen : len (final_notebook_content_str [filling_cell; small_cell])
                 = 150117) by (vm_compute; reflexivity).
  assert (H0 : len (cell_header 0 filling_cell) = 16) by reflexivity.
  assert (H1 : len (cell_header 1 small_cell) = 16) by reflexivity.
  assert (Hm : len SKIP_MARKER = 99) by reflexivity.
  split; [exact Hlen |].
  intros (k & cell & Hk & Hle); rewrite Hlen, Hm in Hle.
  unfold MAX_TOTAL_NOTEBOOK_CHARS in Hle.
  destruct k as [| [| k]]; cbn [nth_error] in Hk.
  - injection Hk as <-; change (Z.of_nat 0) with 0 in Hle; lia.
  - injection Hk as <-; change (Z.of_nat 1) with 1 in Hle; lia.
  - destruct k; discriminate.
Qed.

(** ** Splitting into lines *)

Lemma split_not_nil (c : ascii) (s : pystr) : split c s <> [].
Proof.
  induction s as [| a s IH]; cbn [split]; [discriminate |].
  destruct (Ascii.eqb a c); [discriminate |].
  destruct (split c s); discriminate.
Qed.

Lemma join_split (c : ascii) (s : pystr) : join [c] (split c s) = s.
Proof.
  induction s as [| a s IH]; cbn [split]; [reflexivity |].
  destruct (Ascii.eqb_spec a c) as [-> | Hne].
  - rewrite join_cons by apply split_not_nil.
    cbn [app]; now rewrite IH.
  - destruct (split c s) as [| piece pieces] eqn:E.
    + now destruct (split_not_nil c s).
    + destruct pieces as [| y pieces].
      * cbn [join] in *; now rewrite IH.
      * rewrite join_cons by discriminate.
        rewrite join_cons in IH by discriminate.
        now rewrite <- IH.
Qed.

Lemma split_pieces_no_sep (c : ascii) (s : pystr) :
  Forall (fun piece => ~ In c piece) (split c s).
Proof.
  induction s as [| a s IH]; cbn [split].
  - constructor; [intros [] | constructor].
  - destruct (Ascii.eqb_spec a c) as [-> | Hne].
    + constructor; [intros [] | exact IH].
    + destruct (split c s) as [| piece pieces].
      * constructor; [| constructor].
        intros [H | []]; congruence.
      * inversion IH as [| ? ? Hpiece Hpieces]; subst.
        constructor; [| exact Hpieces].
        intros [H | H]; [congruence | contradiction].
Qed.

Lemma split_single (c : ascii) (x : pystr) : ~ In c x -> split c x = [x].
Proof.
  induction x as [| a x IH]; intros Hnot; cbn [split]; [reflexivity |].
  destruct (Ascii.eqb_spec a c) as [-> | Hne].
  - exfalso; apply Hnot; now left.
  - rewrite IH; [reflexivity | intros Hin; apply Hnot; now right].
Qed.

Lemma split_app_sep (c : ascii) (x r : pystr) :
  ~ In c x -> split c (x ++ c :: r) = x :: split c r.
Proof.
  induction x as [| a x IH]; intros Hnot; cbn [app split].
  - now rewrite Ascii.eqb_refl.
  - destruct (Ascii.eqb_spec a c) as [-> | Hne].
    + exfalso; apply Hnot; now left.
    + rewrite IH; [reflexivity | intros Hin; apply Hnot; now right].
Qed.

Lemma split_join (c : ascii) (pieces : list pystr) :
  pieces <> [] -> Forall (fun piece => ~ In c piece) pieces ->
  split c (join [c] pieces) = pieces.
Proof.
  induction pieces as [| x rest IH]; intros Hne Hall; [congruence |].
  inversion Hall as [| ? ? Hx Hrest]; subst.
  destruct rest as [| y rest].
  - cbn [join]; now apply split_single.
  - rewrite join_cons by discriminate.
    cbn [app]; rewrite split_app_sep by assumption.
    f_equal; apply IH; [discriminate | assumption].
Qed.

Lemma len_split_cons (c a : ascii) (s : pystr) :
  len (split c (a :: s))
  = (if Ascii.eqb a c then 1 else 0) + len (split c s).
Proof.
  cbn [split]; destruct (Ascii.eqb a c); [now rewrite len_cons |].
  destruct (split c s) as [| piece pieces] eqn:E.
  - now destruct (split_not_nil c s).
  - now rewrite !len_cons.
Qed.

Lemma len_split_pos (c : ascii) (s : pystr) : 1 <= len (split c s).
Proof.
  pose proof (split_not_nil c s) as Hne.
  destruct (split c s); [congruence |].
  rewrite len_cons; pose proof (len_nonneg _ l); lia.
Qed.

(** ** Decimal numerals *)

(** A literal of the source with no newline in it: checked character
    by character. *)
Ltac literal_has_no_newline := vm_compute; intuition discriminate.

Lemma uint_digits_no_newline (d : Decimal.uint) :
  ~ In NL (lit (NilEmpty.string_of_uint d)).
Proof.
  induction d; cbn [NilEmpty.string_of_uint lit list_ascii_of_string];
    try (intros [H | H]; [discriminate H | exact (IHd H)]).
  intros [].
Qed.

Lemma str_of_int_no_newline (n : Z) : ~ In NL (str_of_int n).
Proof.
  unfold str_of_int, NilZero.string_of_int, NilZero.string_of_uint.
  destruct (Z.to_int n) as [d | d].
  - destruct d; try apply uint_digits_no_newline.
    intros [H | []]; discriminate H.
  - intros [H | H]; [discriminate H |].
    revert H; destruct d; try apply uint_digits_no_newline.
    intros [H | []]; discriminate H.
Qed.

Lemma code_marker_line_no_newline (omitted : Z) :
  ~ In NL (CODE_MARKER_LINE omitted).
Proof.
  unfold CODE_MARKER_LINE; intros Hin.
  apply in_app_or in Hin; destruct Hin as [Hin | Hin].
  - revert Hin; literal_has_no_newline.
  - apply in_app_or in Hin; destruct Hin as [Hin | Hin].
    + exact (str_of_int_no_newline omitted Hin).
    + revert Hin; literal_has_no_newline.
Qed.

(** ** Truncation of a code source *)

Lemma first_n_last_n_split (A : Type) (l : list A) (h t : Z) :
  0 <= h -> 0 <= t -> h + t <= len l ->
  exists middle,
    l = first_n h l ++ middle ++ last_n t l
    /\ len (first_n h l) = h /\ len (last_n t l) = t
    /\ len middle = len l - (h + t).
Proof.
  intros Hh Ht Hsum; unfold first_n, last_n.
  exists (firstn (List.length l - Z.to_nat t - Z.to_nat h) (skipn (Z.to_nat h) l)).
  assert (Hlen : len l = Z.of_nat (List.length l)) by reflexivity.
  repeat split.
  - rewrite <- (firstn_skipn (Z.to_nat h) l) at 1; f_equal.
    rewrite <- (firstn_skipn (List.length l - Z.to_nat t - Z.to_nat h)
                  (skipn (Z.to_nat h) l)) at 1; f_equal.
    rewrite skipn_skipn; f_equal; lia.
  - unfold len; rewrite length_firstn; lia.
  - unfold len; rewrite length_skipn; lia.
  - unfold len; rewrite length_firstn, length_skipn; lia.
Qed.

Lemma Forall_first_n (A : Type) (P : A -> Prop) (l : list A) (n : Z) :
  Forall P l -> Forall P (first_n n l).
Proof.
  intros Hall; unfold first_n.
  rewrite <- (firstn_skipn (Z.to_nat n) l) in Hall.
  now apply Forall_app in Hall.
Qed.

Lemma Forall_last_n (A : Type) (P : A -> Prop) (l : list A) (n : Z) :
  Forall P l -> Forall P (last_n n l).
Proof.
  intros Hall; unfold last_n.
  rewrite <- (firstn_skipn (List.length l - Z.to_nat n) l) in Hall.
  now apply Forall_app in Hall.
Qed.

Lemma len_pos_not_nil (A : Type) (l : list A) : 0 < len l -> l <> [].
Proof. intros Hpos ->; rewrite len_nil in Hpos; lia. Qed.

(** A source of more than [MAX_LINES_PER_CODE_CELL] lines is cut to its
    first and last lines around the marker. *)
Lemma trimmed_code_source_long (source : pystr) :
  len (split NL source) > MAX_LINES_PER_CODE_CELL ->
  trimmed_code_source source
  = join [NL] (first_n (MAX_LINES_PER_CODE_CELL / 2) (split NL source))
      ++ [NL]
      ++ CODE_MARKER_LINE (len (split NL source) - MAX_LINES_PER_CODE_CELL)
      ++ [NL]
      ++ join [NL]
           (last_n (MAX_LINES_PER_CODE_CELL - MAX_LINES_PER_CODE_CELL / 2)
              (split NL source)).
Proof.
  intros Hlong; unfold trimmed_code_source.
  destruct (Z.gtb_spec (len (split NL source)) MAX_LINES_PER_CODE_CELL)
    as [_ | Hle]; [| lia].
  unfold tail_lines_len; unfold head_lines_len, CODE_MARKER, first_n, last_n.
  change (MAX_LINES_PER_CODE_CELL / 2) with 7.
  change (MAX_LINES_PER_CODE_CELL - 7) with 8.
  unfold MAX_LINES_PER_CODE_CELL in *.
  rewrite slice_to_firstn by lia.
  rewrite slice_from_last by lia.
  replace (Z.to_nat (len (split NL source) - 8))
    with (List.length (split NL source) - Z.to_nat 8)%nat
    by (unfold len; lia).
  now rewrite <- !app_assoc.
Qed.

(** The lines of the cut source: the kept head, the marker line, the
    kept tail. *)
Lemma trimmed_code_source_lines (source : pystr) :
  len (split NL source) > MAX_LINES_PER_CODE_CELL ->
  split NL (trimmed_code_source source)
  = first_n (MAX_LINES_PER_CODE_CELL / 2) (split NL source)
      ++ [CODE_MARKER_LINE (len (split NL source) - MAX_LINES_PER_CODE_CELL)]
      ++ last_n (MAX_LINES_PER_CODE_CELL - MAX_LINES_PER_CODE_CELL / 2)
           (split NL source).
Proof.
  intros Hlong; rewrite trimmed_code_source_long by assumption.
  set (lines := split NL source) in *.
  set (h := MAX_LINES_PER_CODE_CELL / 2).
  set (t := MAX_LINES_PER_CODE_CELL - h).
  destruct (first_n_last_n_split _ lines h t) as (middle & _ & Hh & Ht & _);
    [now vm_compute | now vm_compute
     | subst h t; unfold MAX_LINES_PER_CODE_CELL in *;
       change (15 / 2) with 7; lia |].
  assert (Hhead : first_n h lines <> [])
    by (apply len_pos_not_nil; rewrite Hh; now vm_compute).
  assert (Htail : last_n t lines <> [])
    by (apply len_pos_not_nil; rewrite Ht; now vm_compute).
  set (marker := CODE_MARKER_LINE (len lines - MAX_LINES_PER_CODE_CELL)).
  assert (Hjoin : join [NL] (first_n h lines) ++ [NL] ++ marker ++ [NL]
                    ++ join [NL] (last_n t lines)
                  = join [NL] (first_n h lines ++ [marker] ++ last_n t lines)).
  { rewrite join_app by (assumption || discriminate).
    change ([marker] ++ last_n t lines) with (marker :: last_n t lines).
    now rewrite join_cons by assumption. }
  rewrite Hjoin; apply split_join.
  - destruct (first_n h lines); [congruence | discriminate].
  - pose proof (split_pieces_no_sep NL source) as Hall; fold lines in Hall.
    apply Forall_app; split; [now apply Forall_first_n |].
    constructor; [apply code_marker_line_no_newline |].
    now apply Forall_last_n.
Qed.

Lemma str_eqb_refl (s : pystr) : str_eqb s s = true.
Proof.
  induction s as [| a s IH]; cbn [str_eqb]; [reflexivity |].
  now rewrite Ascii.eqb_refl, IH.
Qed.

Lemma str_eqb_eq (a b : pystr) : str_eqb a b = true <-> a = b.
Proof.
  split; [| intros ->; apply str_eqb_refl].
  revert b; induction a as [| x a IH]; intros [| y b] H; cbn [str_eqb] in H;
    try discriminate; [reflexivity |].
  apply andb_true_iff in H; destruct H as [Hxy Hab].
  apply Ascii.eqb_eq in Hxy; subst; f_equal; now apply IH.
Qed.

(** C5.  A code cell whose (stripped) source has more than
    [MAX_LINES_PER_CODE_CELL] = 15 lines is rendered as its first
    floor(15/2) lines, the marker line stating that the number of lines
    minus 15 were omitted, and its last 15 - floor(15/2) lines; the
    lines between the kept head and tail are exactly that many.  For 20
    lines these are the first 7 lines, the line
    [... [CODE TRUNCATED - 5 lines omitted] ...] and the last 8 lines. *)
Theorem long_code_source_head_marker_tail (cell : Cell) (lines : list pystr) :
  type cell = lit "code" ->
  lines = split NL (strip (source cell)) ->
  len lines > MAX_LINES_PER_CODE_CELL ->
  cell_parts cell
  = [join [NL] (first_n (MAX_LINES_PER_CODE_CELL / 2) lines)
       ++ [NL]
       ++ lit "... [CODE TRUNCATED - "
       ++ str_of_int (len lines - MAX_LINES_PER_CODE_CELL)
       ++ lit " lines omitted] ..."
       ++ [NL]
       ++ join [NL]
            (last_n (MAX_LINES_PER_CODE_CELL - MAX_LINES_PER_CODE_CELL / 2)
               lines)]
  /\ map (split NL) (cell_parts cell)
     = [first_n (MAX_LINES_PER_CODE_CELL / 2) lines
          ++ [CODE_MARKER_LINE (len lines - MAX_LINES_PER_CODE_CELL)]
          ++ last_n (MAX_LINES_PER_CODE_CELL - MAX_LINES_PER_CODE_CELL / 2)
               lines]
  /\ (exists omitted,
        lines = first_n (MAX_LINES_PER_CODE_CELL / 2) lines ++ omitted
                  ++ last_n (MAX_LINES_PER_CODE_CELL
                             - MAX_LINES_PER_CODE_CELL / 2) lines
        /\ len omitted = len lines - MAX_LINES_PER_CODE_CELL)
  /\ (len lines = 20 ->
      map (split NL) (cell_parts cell)
      = [first_n 7 lines
           ++ [lit "... [CODE TRUNCATED - 5 lines omitted] ..."]
           ++ last_n 8 lines]).
Proof.
  intros Htype Hlines Hlong.
  assert (Hparts : cell_parts cell = [trimmed_code_source (strip (source cell))]).
  { unfold cell_parts; rewrite Htype; now rewrite str_eqb_refl. }
  assert (Hsplit : map (split NL) (cell_parts cell)
     = [first_n (MAX_LINES_PER_CODE_CELL / 2) lines
          ++ [CODE_MARKER_LINE (len lines - MAX_LINES_PER_CODE_CELL)]
          ++ last_n (MAX_LINES_PER_CODE_CELL - MAX_LINES_PER_CODE_CELL / 2)
               lines]).
  { rewrite Hparts; cbn [map]; subst lines.
    now rewrite trimmed_code_source_lines. }
  split; [| split; [exact Hsplit | split]].
  - rewrite Hparts; subst lines.
    rewrite trimmed_code_source_long by assumption.
    unfold CODE_MARKER_LINE; now rewrite <- !app_assoc.
  - destruct (first_n_last_n_split _ lines (MAX_LINES_PER_CODE_CELL / 2)
                (MAX_LINES_PER_CODE_CELL - MAX_LINES_PER_CODE_CELL / 2))
      as (middle & Heq & _ & _ & Hmid);
      [now vm_compute | now vm_compute | lia |].
    exists middle; split; [exact Heq | lia].
  - intros H20; rewrite Hsplit, H20; reflexivity.
Qed.

Lemma long_code_source_head_marker_tail_witness :
  map (split NL) (cell_parts (mkCell (lit "code") twenty_lines []))
  = [[lit "x1"; lit "x2"; lit "x3"; lit "x4"; lit "x5"; lit "x6"; lit "x7";
      lit "... [CODE TRUNCATED - 5 lines omitted] ...";
      lit "x13"; lit "x14"; lit "x15"; lit "x16"; lit "x17"; lit "x18";
      lit "x19"; lit "x20"]].
Proof.
  refine (proj2 (proj2 (proj2
    (long_code_source_head_marker_tail (mkCell (lit "code") twenty_lines [])
       (split NL (strip twenty_lines)) _ _ _))) _);
    try reflexivity; now vm_compute.
Defined.

(** ** Truncation of texts by characters *)

Lemma truncate_output_short (max : Z) (marker output_data : pystr) :
  len output_data <= max -> truncate_output max marker output_data = output_data.
Proof.
  intros Hle; unfold truncate_output.
  destruct (Z.gtb_spec (len output_data) max); [lia | reflexivity].
Qed.

Lemma truncate_output_long (max : Z) (marker output_data : pystr) :
  len output_data > max ->
  truncate_output max marker output_data
  = output_head max output_data ++ marker
      ++ output_tail max marker output_data.
Proof.
  intros Hgt; unfold truncate_output.
  destruct (Z.gtb_spec (len output_data) max); [reflexivity | lia].
Qed.

Lemma truncate_error_short (output_data : pystr) :
  len output_data <= MAX_ERROR_CHARS -> truncate_error output_data = output_data.
Proof.
  intros Hle; unfold truncate_error.
  destruct (Z.gtb_spec (len output_data) MAX_ERROR_CHARS); [lia | reflexivity].
Qed.

Lemma truncate_error_long (output_data : pystr) :
  len output_data > MAX_ERROR_CHARS ->
  truncate_error output_data
  = first_n MAX_ERROR_CHARS output_data ++ ERROR_MARKER.
Proof.
  intros Hgt; unfold truncate_error.
  destruct (Z.gtb_spec (len output_data) MAX_ERROR_CHARS); [| lia].
  now rewrite slice_to_firstn by (now vm_compute).
Qed.

Lemma trimmed_markdown_source_short (source : pystr) :
  len source <= MAX_CHARS_PER_MD_CELL -> trimmed_markdown_source source = source.
Proof.
  intros Hle; unfold trimmed_markdown_source.
  destruct (Z.gtb_spec (len source) MAX_CHARS_PER_MD_CELL); [lia | reflexivity].
Qed.

Lemma trimmed_markdown_source_long (source : pystr) :
  len source > MAX_CHARS_PER_MD_CELL ->
  trimmed_markdown_source source
  = first_n MAX_CHARS_PER_MD_CELL source ++ MARKDOWN_MARKER.
Proof.
  intros Hgt; unfold trimmed_markdown_source.
  destruct (Z.gtb_spec (len source) MAX_CHARS_PER_MD_CELL); [| lia].
  now rewrite slice_to_firstn by (now vm_compute).
Qed.

Lemma trimmed_code_source_short (source : pystr) :
  len (split NL source) <= MAX_LINES_PER_CODE_CELL ->
  trimmed_code_source source = source.
Proof.
  intros Hle; unfold trimmed_code_source.
  destruct (Z.gtb_spec (len (split NL source)) MAX_LINES_PER_CODE_CELL);
    [lia | reflexivity].
Qed.

(** The stream marker is longer than half the stream budget: no room is
    left for a tail. *)
Lemma stream_tail_len : tail_len MAX_OUTPUT_CHARS_STREAM STREAM_MARKER = 0.
Proof. reflexivity. Qed.

Lemma exec_result_tail_len :
  tail_len MAX_OUTPUT_CHARS_EXEC_RESULT EXEC_RESULT_MARKER = 25.
Proof. reflexivity. Qed.

Lemma stream_tail_empty (text : pystr) :
  output_tail MAX_OUTPUT_CHARS_STREAM STREAM_MARKER text = [].
Proof.
  unfold output_tail; rewrite stream_tail_len, Z.sub_0_r.
  apply slice_from_len.
Qed.

Lemma len_output_head (max : Z) (text : pystr) :
  0 <= max -> len text > max -> len (output_head max text) = max / 2.
Proof.
  intros Hmax Hgt; unfold output_head, head_len.
  apply len_slice_to; split; [apply Z.div_pos; lia |].
  assert (max / 2 <= max) by (apply Z.div_le_upper_bound; lia); lia.
Qed.

Lemma len_exec_result_tail (text : pystr) :
  len text > MAX_OUTPUT_CHARS_EXEC_RESULT ->
  len (output_tail MAX_OUTPUT_CHARS_EXEC_RESULT EXEC_RESULT_MARKER text) = 25.
Proof.
  intros Hgt; unfold output_tail; rewrite exec_result_tail_len.
  unfold MAX_OUTPUT_CHARS_EXEC_RESULT in Hgt.
  rewrite len_slice_from by lia; lia.
Qed.

(** ** Stripping *)

Lemma len_lstrip_le (s : pystr) : len (lstrip s) <= len s.
Proof.
  induction s as [| a s IH]; cbn [lstrip]; [lia |].
  destruct (is_space a); [rewrite len_cons |]; lia.
Qed.

Lemma len_rstrip_le (s : pystr) : len (rstrip s) <= len s.
Proof.
  induction s as [| a s IH]; cbn [rstrip]; [lia |].
  rewrite len_cons.
  destruct (rstrip s) as [| b kept].
  - rewrite len_nil in IH.
    destruct (is_space a); rewrite ?len_cons, ?len_nil; lia.
  - rewrite !len_cons in *; lia.
Qed.

Lemma len_strip_le (s : pystr) : len (strip s) <= len s.
Proof.
  unfold strip; pose proof (len_rstrip_le (lstrip s)).
  pose proof (len_lstrip_le s); lia.
Qed.

Lemma len_split_lstrip_le (c : ascii) (s : pystr) :
  len (split c (lstrip s)) <= len (split c s).
Proof.
  induction s as [| a s IH]; cbn [lstrip]; [lia |].
  destruct (is_space a); [| lia].
  rewrite (len_split_cons c a s); destruct (Ascii.eqb a c); lia.
Qed.

Lemma len_split_rstrip_le (c : ascii) (s : pystr) :
  len (split c (rstrip s)) <= len (split c s).
Proof.
  induction s as [| a s IH]; cbn [rstrip]; [lia |].
  pose proof (len_split_pos c s) as Hpos.
  rewrite (len_split_cons c a s).
  destruct (rstrip s) as [| b kept].
  - destruct (is_space a).
    + change (len (split c [])) with 1; destruct (Ascii.eqb a c); lia.
    + rewrite (len_split_cons c a []).
      change (len (split c [])) with 1; destruct (Ascii.eqb a c); lia.
  - rewrite (len_split_cons c a (b :: kept)).
    destruct (Ascii.eqb a c); lia.
Qed.

Lemma len_split_strip_le (c : ascii) (s : pystr) :
  len (split c (strip s)) <= len (split c s).
Proof.
  unfold strip; pose proof (len_split_rstrip_le c (lstrip s)).
  pose proof (len_split_lstrip_le c s); lia.
Qed.

Lemma rstrip_idempotent (s : pystr) : rstrip (rstrip s) = rstrip s.
Proof.
  induction s as [| a s IH]; cbn [rstrip]; [reflexivity |].
  destruct (rstrip s) as [| b kept] eqn:E.
  - destruct (is_space a) eqn:Ha; cbn [rstrip]; [reflexivity |].
    now rewrite Ha.
  - change (rstrip (a :: b :: kept))
      with (match rstrip (b :: kept) with
            | [] => if is_space a then [] else [a]
            | k => a :: k
            end).
    now rewrite IH.
Qed.

Lemma lstrip_head (s : pystr) :
  lstrip s = [] \/ exists a t, lstrip s = a :: t /\ is_space a = false.
Proof.
  induction s as [| a s IH]; cbn [lstrip]; [now left |].
  destruct (is_space a) eqn:Ha; [exact IH |].
  right; now exists a, s.
Qed.

Lemma rstrip_head (a : ascii) (t : pystr) :
  is_space a = false -> exists kept, rstrip (a :: t) = a :: kept.
Proof.
  intros Ha; cbn [rstrip].
  destruct (rstrip t) as [| b kept]; [rewrite Ha |]; eauto.
Qed.

Lemma strip_idempotent (s : pystr) : strip (strip s) = strip s.
Proof.
  unfold strip.
  destruct (lstrip_head s) as [E | (a & t & E & Ha)]; rewrite E;
    [reflexivity |].
  pose proof (rstrip_idempotent (a :: t)) as Hidem.
  destruct (rstrip_head a t Ha) as [kept Hkept].
  rewrite Hkept in *.
  cbn [lstrip]; now rewrite Ha.
Qed.

(** A cell stored by the loader has a stripped source: stripping it
    again, as the prompt generator does, gives the stored source. *)
Lemma convert_cell_source_stripped (nb_cell : NbCell) (cell : Cell) :
  convert_cell nb_cell = Return cell -> strip (source cell) = source cell.
Proof.
  unfold convert_cell, getattr, call_strip, bind.
  destruct (nb_cell_type nb_cell); [| discriminate].
  destruct (nb_source nb_cell) as [[s | e] |]; try discriminate.
  intros [= <-]; cbn [source]; apply strip_idempotent.
Qed.

(** C3, as amended.  A stream text of 250 characters is rendered, at
    the threshold of 100, as 102 characters: its first 50 characters and
    the 52-character marker, which contains "STREAM OUTPUT TRUNCATED";
    the tail is empty, since 100 - 50 - 52 is negative and the tail
    length is floored at 0. *)
Theorem stream_250_head_and_marker (text : pystr) :
  len text = 250 ->
  truncate_output MAX_OUTPUT_CHARS_STREAM STREAM_MARKER text
  = first_n 50 text ++ STREAM_MARKER
  /\ len (truncate_output MAX_OUTPUT_CHARS_STREAM STREAM_MARKER text) = 102
  /\ output_head MAX_OUTPUT_CHARS_STREAM text = first_n 50 text
  /\ len (first_n 50 text) = 50
  /\ len STREAM_MARKER = 52
  /\ contains (lit "STREAM OUTPUT TRUNCATED") STREAM_MARKER = true
  /\ output_tail MAX_OUTPUT_CHARS_STREAM STREAM_MARKER text = []
  /\ render_output (Stream text)
     = [fenced (lit "Output (stream):") (first_n 50 text ++ STREAM_MARKER)].
Proof.
  intros Hlen.
  assert (Hhead : output_head MAX_OUTPUT_CHARS_STREAM text = first_n 50 text)
    by reflexivity.
  assert (Hcut : truncate_output MAX_OUTPUT_CHARS_STREAM STREAM_MARKER text
                 = first_n 50 text ++ STREAM_MARKER).
  { rewrite truncate_output_long by (rewrite Hlen; reflexivity).
    now rewrite stream_tail_empty, app_nil_r, Hhead. }
  assert (Hfifty : len (first_n 50 text) = 50)
    by (unfold first_n; apply len_firstn; lia).
  repeat split; try assumption; try reflexivity.
  - rewrite Hcut, len_app, Hfifty; reflexivity.
  - apply stream_tail_empty.
  - cbn [render_output]; now rewrite Hcut.
Qed.

Lemma stream_250_head_and_marker_witness :
  len (truncate_output MAX_OUTPUT_CHARS_STREAM STREAM_MARKER (letters 250))
  = 102.
Proof.
  refine (proj1 (proj2 (stream_250_head_and_marker (letters 250) _))).
  reflexivity.
Defined.

(** C3, as stated, fails: the rendered text of a 250-character stream
    output has 102 characters, not 100, and its tail is empty. *)
Lemma stream_250_is_not_100_chars :
  len (letters 250) = 250
  /\ render_output (Stream (letters 250))
     = [fenced (lit "Output (stream):") (letters 50 ++ STREAM_MARKER)]
  /\ len (letters 50 ++ STREAM_MARKER) <> 100
  /\ output_tail MAX_OUTPUT_CHARS_STREAM STREAM_MARKER (letters 250) = [].
Proof.
  repeat split; try reflexivity.
  now vm_compute.
Qed.

(** C4, as amended.  Of an input over its threshold the truncation
    keeps, the marker apart:
    - of a code source, exactly [MAX_LINES_PER_CODE_CELL] lines, head
      and tail together, around a marker line that states the exact
      number of lines left out;
    - of a markdown source, exactly its first [MAX_CHARS_PER_MD_CELL]
      characters, and of an error text its first [MAX_ERROR_CHARS];
    - of a stream text, 50 characters (the head alone: half the
      maximum), and of a result text, 100 characters (a head of 75 and a
      tail of 25): for these two the length of the marker is taken out
      of the maximum. *)
Theorem kept_units_of_truncated_input
    (code_source md_source stream_text result_text err_text : pystr) :
  (len (split NL code_source) > MAX_LINES_PER_CODE_CELL ->
   exists head omitted tail,
     split NL code_source = head ++ omitted ++ tail
     /\ split NL (trimmed_code_source code_source)
        = head ++ [CODE_MARKER_LINE (len omitted)] ++ tail
     /\ len head + len tail = MAX_LINES_PER_CODE_CELL)
  /\ (len md_source > MAX_CHARS_PER_MD_CELL ->
      trimmed_markdown_source md_source
      = first_n MAX_CHARS_PER_MD_CELL md_source ++ MARKDOWN_MARKER
      /\ len (first_n MAX_CHARS_PER_MD_CELL md_source)
         = MAX_CHARS_PER_MD_CELL)
  /\ (len stream_text > MAX_OUTPUT_CHARS_STREAM ->
      truncate_output MAX_OUTPUT_CHARS_STREAM STREAM_MARKER stream_text
      = output_head MAX_OUTPUT_CHARS_STREAM stream_text ++ STREAM_MARKER
          ++ output_tail MAX_OUTPUT_CHARS_STREAM STREAM_MARKER stream_text
      /\ len (output_head MAX_OUTPUT_CHARS_STREAM stream_text) = 50
      /\ len (output_tail MAX_OUTPUT_CHARS_STREAM STREAM_MARKER stream_text)
         = 0)
  /\ (len result_text > MAX_OUTPUT_CHARS_EXEC_RESULT ->
      truncate_output MAX_OUTPUT_CHARS_EXEC_RESULT EXEC_RESULT_MARKER
        result_text
      = output_head MAX_OUTPUT_CHARS_EXEC_RESULT result_text
          ++ EXEC_RESULT_MARKER
          ++ output_tail MAX_OUTPUT_CHARS_EXEC_RESULT EXEC_RESULT_MARKER
               result_text
      /\ len (output_head MAX_OUTPUT_CHARS_EXEC_RESULT result_text) = 75
      /\ len (output_tail MAX_OUTPUT_CHARS_EXEC_RESULT EXEC_RESULT_MARKER
                result_text) = 25)
  /\ (len err_text > MAX_ERROR_CHARS ->
      truncate_error err_text
      = first_n MAX_ERROR_CHARS err_text ++ ERROR_MARKER
      /\ len (first_n MAX_ERROR_CHARS err_text) = MAX_ERROR_CHARS).
Proof.
  split; [| split; [| split; [| split]]].
  - intros Hlong.
    destruct (first_n_last_n_split _ (split NL code_source)
                (MAX_LINES_PER_CODE_CELL / 2)
                (MAX_LINES_PER_CODE_CELL - MAX_LINES_PER_CODE_CELL / 2))
      as (omitted & Heq & Hh & Ht & Hmid);
      [now vm_compute | now vm_compute | lia |].
    exists (first_n (MAX_LINES_PER_CODE_CELL / 2) (split NL code_source)),
      omitted,
      (last_n (MAX_LINES_PER_CODE_CELL - MAX_LINES_PER_CODE_CELL / 2)
         (split NL code_source)).
    split; [exact Heq |]; split.
    + rewrite trimmed_code_source_lines by assumption.
      replace (len omitted)
        with (len (split NL code_source) - MAX_LINES_PER_CODE_CELL) by lia.
      reflexivity.
    + rewrite Hh, Ht; lia.
  - intros Hlong; split; [now apply trimmed_markdown_source_long |].
    unfold first_n; apply len_firstn.
    unfold MAX_CHARS_PER_MD_CELL in *; lia.
  - intros Hlong; split; [now apply truncate_output_long |]; split.
    + now rewrite len_output_head by (assumption || now vm_compute).
    + now rewrite stream_tail_empty.
  - intros Hlong; split; [now apply truncate_output_long |]; split.
    + now rewrite len_output_head by (assumption || now vm_compute).
    + now apply len_exec_result_tail.
  - intros Hlong; split; [now apply truncate_error_long |].
    unfold first_n; apply len_firstn.
    unfold MAX_ERROR_CHARS in *; lia.
Qed.

Lemma kept_units_of_truncated_input_witness :
  (exists head omitted tail,
     split NL twenty_lines = head ++ omitted ++ tail
     /\ split NL (trimmed_code_source twenty_lines)
        = head ++ [CODE_MARKER_LINE (len omitted)] ++ tail
     /\ len head + len tail = MAX_LINES_PER_CODE_CELL)
  /\ len (first_n MAX_CHARS_PER_MD_CELL (letters 251)) = MAX_CHARS_PER_MD_CELL
  /\ len (output_head MAX_OUTPUT_CHARS_STREAM (letters 250)) = 50
  /\ len (output_tail MAX_OUTPUT_CHARS_EXEC_RESULT EXEC_RESULT_MARKER
            (letters 250)) = 25
  /\ len (first_n MAX_ERROR_CHARS (letters 101)) = MAX_ERROR_CHARS.
Proof.
  destruct (kept_units_of_truncated_input twenty_lines (letters 251)
              (letters 250) (letters 250) (letters 101))
    as (Hcode & Hmd & Hstream & Hresult & Herror).
  split; [apply Hcode; reflexivity |].
  split; [apply Hmd; reflexivity |].
  split; [apply Hstream; reflexivity |].
  split; [apply Hresult; reflexivity | apply Herror; reflexivity].
Defined.

(** C4, as stated, fails: of a 250-character stream text, over the
    threshold of 100, the render keeps 50 characters beside the marker,
    not 100. *)
Lemma stream_keeps_less_than_maximum :
  len (letters 250) > MAX_OUTPUT_CHARS_STREAM
  /\ truncate_output MAX_OUTPUT_CHARS_STREAM STREAM_MARKER (letters 250)
     = letters 50 ++ STREAM_MARKER ++ []
  /\ len (letters 50) + len (@nil ascii) <> MAX_OUTPUT_CHARS_STREAM
  /\ len (truncate_output MAX_OUTPUT_CHARS_STREAM STREAM_MARKER (letters 250))
     - len STREAM_MARKER <> MAX_OUTPUT_CHARS_STREAM.
Proof.
  repeat split; try reflexivity; now vm_compute.
Qed.

(** ** Inputs within their thresholds *)

Lemma render_output_within (output : Output) :
  output_within_threshold output = true ->
  render_output output = untruncated_output output.
Proof.
  destruct output as [text | data | ename evalue | data];
    cbn [output_within_threshold render_output untruncated_output];
    intros Hwithin.
  - now rewrite truncate_output_short by (now apply Z.leb_le).
  - destruct (dict_get (lit "text/plain") data) as [v |]; [| reflexivity].
    now rewrite truncate_output_short by (now apply Z.leb_le).
  - now rewrite truncate_error_short by (now apply Z.leb_le).
  - reflexivity.
Qed.

Lemma render_outputs_within (outs : list Output) :
  forallb output_within_threshold outs = true ->
  flat_map render_output outs = flat_map untruncated_output outs.
Proof.
  induction outs as [| o outs IH]; cbn [forallb flat_map]; [reflexivity |].
  intros Hall; apply andb_true_iff in Hall; destruct Hall as [Ho Houts].
  now rewrite render_output_within, IH.
Qed.

Lemma cell_parts_within (cell : Cell) :
  source_within_threshold cell = true ->
  cell_parts cell = untruncated_parts cell.
Proof.
  unfold source_within_threshold, cell_parts, untruncated_parts.
  destruct (str_eqb (type cell) (lit "code")).
  - intros Hle; apply Z.leb_le in Hle.
    rewrite trimmed_code_source_short; [reflexivity |].
    pose proof (len_split_strip_le NL (source cell)); lia.
  - destruct (str_eqb (type cell) (lit "markdown")); [| reflexivity].
    intros Hle; apply Z.leb_le in Hle.
    rewrite trimmed_markdown_source_short; [reflexivity |].
    pose proof (len_strip_le (source cell)); lia.
Qed.

(** C6.  When the source of a cell is at or below the threshold of its
    type (lines for code, characters for markdown) and the text of each
    of its outputs is at or below the threshold of the output's type, no
    truncation takes place: content and block are those of the render
    with no truncation rule, which carries no marker. *)
Theorem within_thresholds_render_untruncated (idx : Z) (cell : Cell) :
  source_within_threshold cell = true ->
  forallb output_within_threshold (outputs cell) = true ->
  cell_content cell = untruncated_content cell
  /\ full_block idx cell = cell_header idx cell ++ untruncated_content cell.
Proof.
  intros Hsource Houtputs.
  assert (Heq : cell_content cell = untruncated_content cell).
  { unfold cell_content, untruncated_content, output_text_parts.
    rewrite cell_parts_within by assumption.
    destruct (str_eqb (type cell) (lit "code")); [| reflexivity].
    now rewrite render_outputs_within. }
  split; [exact Heq | unfold full_block; now rewrite Heq].
Qed.

Lemma within_thresholds_render_untruncated_witness :
  cell_content (mkCell (lit "code") (lit "print(1)") [Stream (lit "1")])
  = lit "print(1)" ++ [NL; NL]
      ++ fenced (lit "Output (stream):") (lit "1").
Proof.
  refine (proj1 (within_thresholds_render_untruncated 0
            (mkCell (lit "code") (lit "print(1)") [Stream (lit "1")]) _ _));
    reflexivity.
Defined.

(** ** The entry point *)

(** C7.  With no guideline loaded the entry point returns the message
    [No guidelines loaded. ...]; with guidelines but no notebook cell it
    returns the message [No notebook loaded. ...].  In both cases the
    result is a plain string, as is every result of the function. *)
Theorem missing_input_is_reported (args : list PyObj)
    (kwargs : list (pystr * PyObj)) (st : State) :
  (guidelines st = [] ->
   get_prompt_for_claude args kwargs st
   = lit "No guidelines loaded. Use `load_guidelines()` first."
   /\ contains (lit "No guidelines loaded")
        (get_prompt_for_claude args kwargs st) = true)
  /\ (guidelines st <> [] -> notebook_cells st = [] ->
      get_prompt_for_claude args kwargs st
      = lit "No notebook loaded. Use `load_notebook()` or `load_notebook_content()` first."
      /\ contains (lit "No notebook loaded")
           (get_prompt_for_claude args kwargs st) = true).
Proof.
  unfold get_prompt_for_claude; split.
  - intros ->; split; reflexivity.
  - intros Hg ->; destruct (guidelines st); [congruence |].
    split; reflexivity.
Qed.

Lemma missing_input_is_reported_witness :
  contains (lit "No guidelines loaded")
    (get_prompt_for_claude [PyInt 1] [] (mkState [] [small_cell])) = true
  /\ contains (lit "No notebook loaded")
       (get_prompt_for_claude [] [(lit "x", PyNone)]
          (mkState [lit "Be clear"] [])) = true.
Proof.
  split.
  - refine (proj2 (proj1 (missing_input_is_reported [PyInt 1] []
                            (mkState [] [small_cell])) _)).
    reflexivity.
  - refine (proj2 (proj2 (missing_input_is_reported [] [(lit "x", PyNone)]
                            (mkState [lit "Be clear"] [])) _ _)).
    + discriminate.
    + reflexivity.
Defined.

(** C10.  The arguments of the entry point are not used: in one state,
    any two calls return the same string. *)
Theorem arguments_are_ignored (args1 args2 : list PyObj)
    (kwargs1 kwargs2 : list (pystr * PyObj)) (st : State) :
  get_prompt_for_claude args1 kwargs1 st
  = get_prompt_for_claude args2 kwargs2 st.
Proof. reflexivity. Qed.

(** ** The guidelines section *)

Lemma guidelines_loop_spec (gs : list pystr) (i : Z) (p : pystr) :
  guidelines_loop i gs p = p ++ concat (numbered_guidelines i gs).
Proof.
  revert i p; induction gs as [| g gs IH]; intros i p;
    cbn [guidelines_loop numbered_guidelines concat].
  - now rewrite app_nil_r.
  - now rewrite IH, <- app_assoc.
Qed.

Lemma len_numbered_guidelines (gs : list pystr) (i : Z) :
  len (numbered_guidelines i gs) = len gs.
Proof.
  revert i; induction gs as [| g gs IH]; intros i;
    cbn [numbered_guidelines]; [reflexivity |].
  now rewrite !len_cons, IH.
Qed.

Lemma nth_error_numbered_guidelines (gs : list pystr) (i : Z) (k : nat)
    (g : pystr) :
  nth_error gs k = Some g ->
  nth_error (numbered_guidelines i gs) k
  = Some (guideline_line (i + Z.of_nat k) g).
Proof.
  revert i k; induction gs as [| g0 gs IH]; intros i k Hk.
  - destruct k; discriminate.
  - destruct k as [| k]; cbn [nth_error numbered_guidelines] in *.
    + injection Hk as ->; now rewrite Z.add_0_r.
    + rewrite (IH (i + 1) k Hk); do 2 f_equal; lia.
Qed.

Lemma lit_no_newline_guideline : ~ In NL (lit "Guideline ").
Proof. literal_has_no_newline. Qed.

Lemma guideline_line_entry (i : Z) (g : pystr) :
  ~ In NL g ->
  exists entry,
    guideline_line i g = entry ++ [NL] /\ ~ In NL entry
    /\ removelast (guideline_line i g) = entry.
Proof.
  intros Hg.
  exists (lit "Guideline " ++ str_of_int i ++ lit ": " ++ g).
  assert (Heq : guideline_line i g
                = (lit "Guideline " ++ str_of_int i ++ lit ": " ++ g) ++ [NL])
    by (unfold guideline_line; now rewrite <- !app_assoc).
  split; [exact Heq |]; split.
  - intros Hin.
    apply in_app_or in Hin; destruct Hin as [Hin | Hin];
      [exact (lit_no_newline_guideline Hin) |].
    apply in_app_or in Hin; destruct Hin as [Hin | Hin];
      [exact (str_of_int_no_newline i Hin) |].
    apply in_app_or in Hin; destruct Hin as [Hin | Hin];
      [| exact (Hg Hin)].
    revert Hin; literal_has_no_newline.
  - rewrite Heq; apply removelast_last.
Qed.

(** When no guideline holds a newline, the lines of the section are the
    entries, one per line, and the empty piece after the last newline. *)
Lemma numbered_guidelines_lines (gs : list pystr) (i : Z) :
  Forall (fun g => ~ In NL g) gs ->
  split NL (concat (numbered_guidelines i gs))
  = map (@removelast ascii) (numbered_guidelines i gs) ++ [[]].
Proof.
  intros Hall; revert i; induction Hall as [| g gs Hg Hgs IH]; intros i;
    cbn [numbered_guidelines concat map app]; [reflexivity |].
  destruct (guideline_line_entry i g Hg) as (entry & Heq & Hentry & Hlast).
  rewrite Hlast, Heq, <- app_assoc; cbn [app].
  now rewrite split_app_sep, IH by assumption.
Qed.

Lemma lstrip_app_head (a : ascii) (p r : pystr) :
  is_space a = false -> lstrip ((a :: p) ++ r) = (a :: p) ++ r.
Proof. intros Ha; cbn [app lstrip]; now rewrite Ha. Qed.

Lemma rstrip_app (s t : pystr) :
  rstrip t <> [] -> rstrip (s ++ t) = s ++ rstrip t.
Proof.
  intros Ht; induction s as [| a s IH]; cbn [app rstrip]; [reflexivity |].
  rewrite IH; destruct (s ++ rstrip t) eqn:E; [| reflexivity].
  apply app_eq_nil in E; tauto.
Qed.

(** The prompt, part by part. *)
Lemma prompt_parts (gs : list pystr) (cells : list Cell) :
  prompt gs cells
  = PREAMBLE
      ++ (lit "--- START NOTEBOOK CONTENT ---" ++ [NL]
            ++ final_notebook_content_str cells
            ++ [NL] ++ lit "--- END NOTEBOOK CONTENT ---" ++ [NL; NL]
            ++ lit "--- REVIEW GUIDELINES ---" ++ [NL]
            ++ concat (numbered_guidelines 1 gs)
            ++ lit "--- END REVIEW GUIDELINES ---" ++ [NL; NL])
      ++ ANALYSIS_INSTRUCTIONS.
Proof.
  unfold prompt; rewrite guidelines_loop_spec.
  now rewrite <- !app_assoc.
Qed.

(** The final [strip] takes off the last newline and nothing else. *)
Lemma strip_prompt (body : pystr) :
  strip (PREAMBLE ++ body ++ ANALYSIS_INSTRUCTIONS)
  = PREAMBLE ++ body ++ rstrip ANALYSIS_INSTRUCTIONS.
Proof.
  assert (Hhead : exists tl, PREAMBLE = "B"%char :: tl)
    by (eexists; reflexivity).
  destruct Hhead as [tl Hhead]; rewrite Hhead.
  unfold strip; rewrite lstrip_app_head by reflexivity.
  rewrite (app_assoc ("B"%char :: tl) body), rstrip_app.
  - now rewrite <- app_assoc.
  - now vm_compute.
Qed.

(** C8.  With guidelines and a notebook loaded, the returned prompt
    holds, between the lines [--- REVIEW GUIDELINES ---] and
    [--- END REVIEW GUIDELINES ---], one entry per guideline and nothing
    else: the entry at position [k] (from 0) is
    [Guideline {k+1}: {text}] followed by a newline, where [text] is
    the guideline at position [k] of the list.  When no guideline holds
    a newline itself, these entries are exactly the lines of the
    section. *)
Theorem guidelines_numbered_in_input_order (args : list PyObj)
    (kwargs : list (pystr * PyObj)) (st : State) :
  guidelines st <> [] -> notebook_cells st <> [] ->
  get_prompt_for_claude args kwargs st
  = PREAMBLE
      ++ (lit "--- START NOTEBOOK CONTENT ---" ++ [NL]
            ++ final_notebook_content_str (notebook_cells st)
            ++ [NL] ++ lit "--- END NOTEBOOK CONTENT ---" ++ [NL; NL]
            ++ lit "--- REVIEW GUIDELINES ---" ++ [NL]
            ++ concat (numbered_guidelines 1 (guidelines st))
            ++ lit "--- END REVIEW GUIDELINES ---" ++ [NL; NL])
      ++ rstrip ANALYSIS_INSTRUCTIONS
  /\ len (numbered_guidelines 1 (guidelines st)) = len (guidelines st)
  /\ (forall k g, nth_error (guidelines st) k = Some g ->
        nth_error (numbered_guidelines 1 (guidelines st)) k
        = Some (lit "Guideline " ++ str_of_int (Z.of_nat k + 1)
                  ++ lit ": " ++ g ++ [NL]))
  /\ (Forall (fun g => ~ In NL g) (guidelines st) ->
      split NL (concat (numbered_guidelines 1 (guidelines st)))
      = map (@removelast ascii) (numbered_guidelines 1 (guidelines st))
          ++ [[]]).
Proof.
  intros Hg Hc; split; [| split; [| split]].
  - unfold get_prompt_for_claude.
    destruct (guidelines st) as [| g gs] eqn:Eg; [congruence |].
    destruct (notebook_cells st) as [| c cs] eqn:Ec; [congruence |].
    now rewrite prompt_parts, strip_prompt.
  - apply len_numbered_guidelines.
  - intros k g Hk.
    rewrite (nth_error_numbered_guidelines _ 1 k g Hk).
    replace (Z.of_nat k + 1) with (1 + Z.of_nat k) by lia.
    reflexivity.
  - apply numbered_guidelines_lines.
Qed.

Lemma guidelines_numbered_in_input_order_witness :
  nth_error (numbered_guidelines 1 [lit "Be clear"; lit "Cite cells"]) 1
  = Some (lit "Guideline 2: Cite cells" ++ [NL]).
Proof.
  refine (proj1 (proj2 (proj2 (guidelines_numbered_in_input_order [] []
            (mkState [lit "Be clear"; lit "Cite cells"] [small_cell]) _ _)))
            1%nat (lit "Cite cells") _).
  - discriminate.
  - discriminate.
  - reflexivity.
Defined.

(** ** Loading from a JSON string *)

(** C9.  When the parser raises on the JSON string, the loader returns
    the message [Failed to parse notebook JSON: ...] and the state is
    the one before the call: the stored cells are cleared only once the
    parser has returned. *)
Theorem failed_parse_keeps_state
    (nbformat_reads : pystr -> Exc (list NbCell))
    (json_string e : pystr) (st : State) :
  nbformat_reads json_string = Raise e ->
  load_notebook_content nbformat_reads json_string st
  = (lit "Failed to parse notebook JSON: " ++ e, st).
Proof.
  intros Hraise; unfold load_notebook_content; now rewrite Hraise.
Qed.

Lemma failed_parse_keeps_state_witness :
  snd (load_notebook_content (fun _ => Raise (lit "Expecting value"))
         (lit "{") (mkState [lit "Be clear"] [small_cell]))
  = mkState [lit "Be clear"] [small_cell].
Proof.
  rewrite (failed_parse_keeps_state (fun _ => Raise (lit "Expecting value"))
             (lit "{") (lit "Expecting value")
             (mkState [lit "Be clear"] [small_cell])).
  - reflexivity.
  - reflexivity.
Defined.

(** For contrast: a notebook that parses but has a cell with no source
    leaves the cell list empty, the old cells being cleared already. *)
Lemma failed_conversion_clears_cells
    (nbformat_reads : pystr -> Exc (list NbCell))
    (json_string : pystr) (st : State) :
  nbformat_reads json_string = Return [mkNbCell (Some (lit "code")) None None] ->
  load_notebook_content nbformat_reads json_string st
  = (lit "Failed to parse notebook JSON: source", mkState (guidelines st) []).
Proof.
  intros Hparse; unfold load_notebook_content; now rewrite Hparse.
Qed.

(* ================================================================== *)
(** * Further properties of the program *)

(** ** The assembler, whole runs *)

(** X1.  When header and content of all the cells stay within the
    budget, every cell is rendered in full: one block per cell, in
    order, and no skip marker. *)
Theorem all_cells_within_budget_all_rendered (cells : list Cell) :
  total_chars 0 cells <= MAX_TOTAL_NOTEBOOK_CHARS ->
  trimmed_cells_content cells = full_blocks 0 cells
  /\ final_notebook_content_str cells = join [NL; NL] (full_blocks 0 cells)
  /\ len (trimmed_cells_content cells) = len cells.
Proof.
  intros Hfit.
  assert (Heq : trimmed_cells_content cells = full_blocks 0 cells).
  { unfold trimmed_cells_content.
    rewrite <- (app_nil_r cells) at 1.
    rewrite assemble_loop_fits by lia.
    reflexivity. }
  split; [exact Heq |]; split.
  - unfold final_notebook_content_str; now rewrite Heq.
  - rewrite Heq; apply len_full_blocks.
Qed.

Lemma all_cells_within_budget_all_rendered_witness :
  trimmed_cells_content [small_cell; small_cell]
  = [full_block 0 small_cell; full_block 1 small_cell].
Proof.
  refine (proj1 (all_cells_within_budget_all_rendered
                   [small_cell; small_cell] _)).
  now vm_compute.
Defined.

(** X2.  When header and content of all the cells together pass the
    budget, there is a first cell that does not fit: the cells before it
    are rendered in full and total at most the budget, and the last
    block is that cell's header with the skip marker. *)
Theorem over_budget_ends_with_skip_block (cells : list Cell) :
  total_chars 0 cells > MAX_TOTAL_NOTEBOOK_CHARS ->
  exists pre cell post,
    cells = pre ++ cell :: post
    /\ total_chars 0 pre <= MAX_TOTAL_NOTEBOOK_CHARS
    /\ total_chars 0 pre + len (cell_header (len pre) cell)
         + len (cell_content cell) > MAX_TOTAL_NOTEBOOK_CHARS
    /\ trimmed_cells_content cells
       = full_blocks 0 pre ++ [cell_header (len pre) cell ++ SKIP_MARKER].
Proof.
  intros Hover; unfold trimmed_cells_content.
  destruct (assemble_loop_shape cells 0 [] 0) as
    [[Hall _] | (pre & cell & post & Hcells & Hpre & Hcell & Heq)];
    [unfold MAX_TOTAL_NOTEBOOK_CHARS; lia | lia |].
  exists pre, cell, post.
  rewrite !Z.add_0_l in *.
  repeat split; try assumption.
Qed.

Lemma over_budget_ends_with_skip_block_witness :
  exists pre cell post,
    [filling_cell; small_cell] = pre ++ cell :: post
    /\ total_chars 0 pre <= MAX_TOTAL_NOTEBOOK_CHARS
    /\ total_chars 0 pre + len (cell_header (len pre) cell)
         + len (cell_content cell) > MAX_TOTAL_NOTEBOOK_CHARS
    /\ trimmed_cells_content [filling_cell; small_cell]
       = full_blocks 0 pre ++ [cell_header (len pre) cell ++ SKIP_MARKER].
Proof.
  apply (over_budget_ends_with_skip_block [filling_cell; small_cell]).
  now vm_compute.
Defined.

Lemma ends_with_app (h suffix : pystr) : ends_with suffix (h ++ suffix) = true.
Proof.
  unfold ends_with; rewrite len_app.
  pose proof (len_nonneg _ h) as Hh.
  apply andb_true_iff; split; [apply Z.leb_le; lia |].
  replace (len h + len suffix - len suffix) with (len h) by lia.
  rewrite slice_from_skipn by assumption.
  unfold len; rewrite Nat2Z.id, skipn_app, skipn_all, Nat.sub_diag.
  cbn [app skipn]; apply str_eqb_refl.
Qed.

(** X3.  The assembler never emits more blocks than there are cells,
    and the blocks rendered in full, that is all of them or all but a
    last block ending with the skip marker, never total more than the
    budget, separators apart. *)
Theorem emitted_blocks_within_cells_and_budget (cells : list Cell) :
  len (trimmed_cells_content cells) <= len cells
  /\ (sum_len (trimmed_cells_content cells) <= MAX_TOTAL_NOTEBOOK_CHARS
      \/ exists fulls skipped,
           trimmed_cells_content cells = fulls ++ [skipped]
           /\ sum_len fulls <= MAX_TOTAL_NOTEBOOK_CHARS
           /\ ends_with SKIP_MARKER skipped = true).
Proof.
  unfold trimmed_cells_content.
  destruct (assemble_loop_shape cells 0 [] 0) as
    [[Hall Heq] | (pre & cell & post & Hcells & Hpre & Hcell & Heq)];
    [unfold MAX_TOTAL_NOTEBOOK_CHARS; lia | |];
    rewrite Heq; cbn [app].
  - rewrite len_full_blocks, sum_len_full_blocks; split; [lia | left; lia].
  - split.
    + rewrite len_app, len_full_blocks, Hcells, len_app, !len_cons, len_nil.
      pose proof (len_nonneg _ post); lia.
    + right; exists (full_blocks 0 pre), (skipped_block (0 + len pre) cell).
      rewrite sum_len_full_blocks; repeat split; [lia |].
      apply ends_with_app.
Qed.

(** ** The cell renderer *)

Lemma str_eqb_neq (a b : pystr) : a <> b -> str_eqb a b = false.
Proof.
  intros Hne; destruct (str_eqb a b) eqn:E; [| reflexivity].
  now apply str_eqb_eq in E.
Qed.

(** X4.  The outputs of a cell that is not a code cell are never
    rendered: its content is the same whatever outputs it carries. *)
Theorem outputs_ignored_outside_code_cells (t s : pystr)
    (outs1 outs2 : list Output) :
  t <> lit "code" ->
  cell_content (mkCell t s outs1) = cell_content (mkCell t s outs2)
  /\ output_text_parts (mkCell t s outs1) = [].
Proof.
  intros Ht; unfold cell_content, output_text_parts, cell_parts.
  cbn [type source outputs]; now rewrite (str_eqb_neq _ _ Ht).
Qed.

Lemma outputs_ignored_outside_code_cells_witness :
  cell_content (mkCell (lit "markdown") (lit "# Title") [Stream (lit "out")])
  = cell_content (mkCell (lit "markdown") (lit "# Title") []).
Proof.
  refine (proj1 (outputs_ignored_outside_code_cells (lit "markdown")
                   (lit "# Title") [Stream (lit "out")] [] _)).
  discriminate.
Defined.

(** X5.  A cell that is neither a code nor a markdown cell (a raw cell,
    say) contributes its header and nothing else: neither its source nor
    its outputs are shown. *)
Theorem other_cell_types_render_header_only (idx : Z) (cell : Cell) :
  type cell <> lit "code" -> type cell <> lit "markdown" ->
  cell_content cell = [] /\ full_block idx cell = cell_header idx cell.
Proof.
  intros Hcode Hmd.
  assert (Hempty : cell_content cell = []).
  { unfold cell_content, cell_parts, output_text_parts.
    now rewrite (str_eqb_neq _ _ Hcode), (str_eqb_neq _ _ Hmd). }
  split; [exact Hempty |].
  unfold full_block; now rewrite Hempty, app_nil_r.
Qed.

Lemma other_cell_types_render_header_only_witness :
  full_block 2 (mkCell (lit "raw") (lit "some text") [Stream (lit "out")])
  = lit "# Cell 3 - Raw" ++ [NL].
Proof.
  refine (proj2 (other_cell_types_render_header_only 2
                   (mkCell (lit "raw") (lit "some text") [Stream (lit "out")])
                   _ _)); discriminate.
Defined.

Lemma truncate_stream_long (text : pystr) :
  len text > MAX_OUTPUT_CHARS_STREAM ->
  truncate_output MAX_OUTPUT_CHARS_STREAM STREAM_MARKER text
  = first_n 50 text ++ STREAM_MARKER.
Proof.
  intros Hlong; rewrite truncate_output_long by assumption.
  rewrite stream_tail_empty, app_nil_r; reflexivity.
Qed.

Lemma len_truncate_stream_long (text : pystr) :
  len text > MAX_OUTPUT_CHARS_STREAM ->
  len (truncate_output MAX_OUTPUT_CHARS_STREAM STREAM_MARKER text) = 102.
Proof.
  intros Hlong; rewrite truncate_stream_long, len_app by assumption.
  unfold first_n.
  rewrite len_firstn by (unfold MAX_OUTPUT_CHARS_STREAM in Hlong; lia).
  reflexivity.
Qed.

Lemma result_tail_last (text : pystr) :
  len text > MAX_OUTPUT_CHARS_EXEC_RESULT ->
  output_tail MAX_OUTPUT_CHARS_EXEC_RESULT EXEC_RESULT_MARKER text
  = last_n 25 text.
Proof.
  intros Hlong; unfold MAX_OUTPUT_CHARS_EXEC_RESULT in Hlong.
  unfold output_tail, last_n; rewrite exec_result_tail_len.
  rewrite slice_from_skipn by lia.
  f_equal; unfold len; lia.
Qed.

Lemma truncate_result_long (text : pystr) :
  len text > MAX_OUTPUT_CHARS_EXEC_RESULT ->
  truncate_output MAX_OUTPUT_CHARS_EXEC_RESULT EXEC_RESULT_MARKER text
  = first_n 75 text ++ EXEC_RESULT_MARKER ++ last_n 25 text.
Proof.
  intros Hlong; rewrite truncate_output_long by assumption.
  now rewrite result_tail_last.
Qed.

Lemma len_truncate_result_long (text : pystr) :
  len text > MAX_OUTPUT_CHARS_EXEC_RESULT ->
  len (truncate_output MAX_OUTPUT_CHARS_EXEC_RESULT EXEC_RESULT_MARKER text)
  = MAX_OUTPUT_CHARS_EXEC_RESULT.
Proof.
  intros Hlong; rewrite truncate_result_long by assumption.
  unfold MAX_OUTPUT_CHARS_EXEC_RESULT in Hlong.
  destruct (first_n_last_n_split _ text 75 25)
    as (dropped & _ & Hh & Ht & _); [lia | lia | lia |].
  rewrite !len_app, Hh, Ht; reflexivity.
Qed.

(** X6.  Every stream text of more than 100 characters, however long,
    is shown as its first 50 characters and the marker, 102 characters
    in all: nothing of its end is shown, and a text of 101 characters
    comes out longer than it went in. *)
Theorem stream_text_over_threshold (text : pystr) :
  len text > MAX_OUTPUT_CHARS_STREAM ->
  truncate_output MAX_OUTPUT_CHARS_STREAM STREAM_MARKER text
  = first_n 50 text ++ STREAM_MARKER
  /\ len (truncate_output MAX_OUTPUT_CHARS_STREAM STREAM_MARKER text) = 102.
Proof.
  intros Hlong; split.
  - now apply truncate_stream_long.
  - now apply len_truncate_stream_long.
Qed.

Lemma stream_text_over_threshold_witness :
  len (truncate_output MAX_OUTPUT_CHARS_STREAM STREAM_MARKER (letters 101))
  = 102.
Proof.
  refine (proj2 (stream_text_over_threshold (letters 101) _)).
  reflexivity.
Defined.

(** X7.  Every result text of more than 150 characters is shown as its
    first 75 characters, the marker, and its last 25 characters, exactly
    150 characters in all; head and tail do not overlap, and the
    characters between them, all but 100, are dropped. *)
Theorem result_text_over_threshold (text : pystr) :
  len text > MAX_OUTPUT_CHARS_EXEC_RESULT ->
  truncate_output MAX_OUTPUT_CHARS_EXEC_RESULT EXEC_RESULT_MARKER text
  = first_n 75 text ++ EXEC_RESULT_MARKER ++ last_n 25 text
  /\ len (truncate_output MAX_OUTPUT_CHARS_EXEC_RESULT EXEC_RESULT_MARKER text)
     = MAX_OUTPUT_CHARS_EXEC_RESULT
  /\ exists dropped,
       text = first_n 75 text ++ dropped ++ last_n 25 text
       /\ len dropped = len text - 100.
Proof.
  intros Hlong; split; [now apply truncate_result_long |].
  split; [now apply len_truncate_result_long |].
  unfold MAX_OUTPUT_CHARS_EXEC_RESULT in Hlong.
  destruct (first_n_last_n_split _ text 75 25)
    as (dropped & Heq & _ & _ & Hmid); [lia | lia | lia |].
  exists dropped; split; [exact Heq | lia].
Qed.

Lemma result_text_over_threshold_witness :
  len (truncate_output MAX_OUTPUT_CHARS_EXEC_RESULT EXEC_RESULT_MARKER
         (letters 151))
  = MAX_OUTPUT_CHARS_EXEC_RESULT.
Proof.
  refine (proj1 (proj2 (result_text_over_threshold (letters 151) _))).
  reflexivity.
Defined.

(** X8.  Whatever its input, a rendered text has a bounded length: a
    stream text at most 102 characters, a result text at most 150, a
    markdown source at most 250 and the 29 of its marker, an error text
    at most 100 and the 26 of its marker. *)
Theorem rendered_text_lengths_bounded (s : pystr) :
  len (truncate_output MAX_OUTPUT_CHARS_STREAM STREAM_MARKER s) <= 102
  /\ len (truncate_output MAX_OUTPUT_CHARS_EXEC_RESULT EXEC_RESULT_MARKER s)
     <= 150
  /\ len (trimmed_markdown_source s) <= 250 + 29
  /\ len (truncate_error s) <= 100 + 26.
Proof.
  repeat split.
  - destruct (Z.leb_spec (len s) MAX_OUTPUT_CHARS_STREAM) as [Hle | Hgt].
    + rewrite truncate_output_short by assumption.
      unfold MAX_OUTPUT_CHARS_STREAM in Hle; lia.
    + rewrite len_truncate_stream_long by lia; lia.
  - destruct (Z.leb_spec (len s) MAX_OUTPUT_CHARS_EXEC_RESULT) as [Hle | Hgt].
    + rewrite truncate_output_short by assumption.
      unfold MAX_OUTPUT_CHARS_EXEC_RESULT in Hle; lia.
    + rewrite len_truncate_result_long by lia; reflexivity.
  - destruct (Z.leb_spec (len s) MAX_CHARS_PER_MD_CELL) as [Hle | Hgt].
    + rewrite trimmed_markdown_source_short by assumption.
      unfold MAX_CHARS_PER_MD_CELL in Hle; lia.
    + rewrite trimmed_markdown_source_long by lia.
      unfold first_n; rewrite len_app, len_firstn
        by (unfold MAX_CHARS_PER_MD_CELL in *; lia).
      reflexivity.
  - destruct (Z.leb_spec (len s) MAX_ERROR_CHARS) as [Hle | Hgt].
    + rewrite truncate_error_short by assumption.
      unfold MAX_ERROR_CHARS in Hle; lia.
    + rewrite truncate_error_long by lia.
      unfold first_n; rewrite len_app, len_firstn
        by (unfold MAX_ERROR_CHARS in *; lia).
      reflexivity.
Qed.

(** X9.  Whatever its input, the rendered source of a code cell has at
    most 16 lines: the source itself when it has at most 15, and
    otherwise exactly 16, marker line included.  The lines themselves
    are kept whole, whatever their length. *)
Theorem code_source_rendered_lines_bounded (source : pystr) :
  len (split NL (trimmed_code_source source)) <= 16
  /\ (len (split NL source) > MAX_LINES_PER_CODE_CELL ->
      len (split NL (trimmed_code_source source)) = 16)
  /\ (len (split NL source) <= MAX_LINES_PER_CODE_CELL ->
      trimmed_code_source source = source).
Proof.
  assert (Hlong : len (split NL source) > MAX_LINES_PER_CODE_CELL ->
                  len (split NL (trimmed_code_source source)) = 16).
  { intros Hgt; rewrite trimmed_code_source_lines by assumption.
    destruct (first_n_last_n_split _ (split NL source)
                (MAX_LINES_PER_CODE_CELL / 2)
                (MAX_LINES_PER_CODE_CELL - MAX_LINES_PER_CODE_CELL / 2))
      as (omitted & _ & Hh & Ht & _);
      [now vm_compute | now vm_compute | lia |].
    rewrite !len_app, Hh, Ht; reflexivity. }
  split; [| split; [exact Hlong | apply trimmed_code_source_short]].
  destruct (Z.leb_spec (len (split NL source)) MAX_LINES_PER_CODE_CELL)
    as [Hle | Hgt].
  - rewrite trimmed_code_source_short by assumption.
    unfold MAX_LINES_PER_CODE_CELL in Hle; lia.
  - rewrite Hlong by lia; lia.
Qed.

Lemma code_source_rendered_lines_bounded_witness :
  len (split NL (trimmed_code_source twenty_lines)) = 16.
Proof.
  refine (proj1 (proj2 (code_source_rendered_lines_bounded twenty_lines)) _).
  reflexivity.
Defined.

(** ** The prompt as a whole *)

Lemma starts_with_app (p r : pystr) : starts_with p (p ++ r) = true.
Proof.
  induction p as [| a p IH]; cbn [app starts_with]; [reflexivity |].
  now rewrite Ascii.eqb_refl, IH.
Qed.

Lemma len_concat (parts : list pystr) : len (concat parts) = sum_len parts.
Proof.
  induction parts as [| x rest IH]; cbn [concat sum_len]; [reflexivity |].
  now rewrite len_app, IH.
Qed.

(** The prompt that is returned when guidelines and cells are there. *)
Lemma get_prompt_for_claude_parts (args : list PyObj)
    (kwargs : list (pystr * PyObj)) (st : State) :
  guidelines st <> [] -> notebook_cells st <> [] ->
  get_prompt_for_claude args kwargs st
  = PREAMBLE
      ++ (lit "--- START NOTEBOOK CONTENT ---" ++ [NL]
            ++ final_notebook_content_str (notebook_cells st)
            ++ [NL] ++ lit "--- END NOTEBOOK CONTENT ---" ++ [NL; NL]
            ++ lit "--- REVIEW GUIDELINES ---" ++ [NL]
            ++ concat (numbered_guidelines 1 (guidelines st))
            ++ lit "--- END REVIEW GUIDELINES ---" ++ [NL; NL])
      ++ rstrip ANALYSIS_INSTRUCTIONS.
Proof.
  intros Hg Hc; unfold get_prompt_for_claude.
  destruct (guidelines st) as [| g gs] eqn:Eg; [congruence |].
  destruct (notebook_cells st) as [| c cs] eqn:Ec; [congruence |].
  now rewrite prompt_parts, strip_prompt.
Qed.

(** X10.  The string the entry point returns never starts or ends with
    whitespace, in any of its three outcomes and whatever the cells and
    guidelines hold: stripping it again changes nothing. *)
Theorem returned_string_is_stripped (args : list PyObj)
    (kwargs : list (pystr * PyObj)) (st : State) :
  strip (get_prompt_for_claude args kwargs st)
  = get_prompt_for_claude args kwargs st.
Proof.
  unfold get_prompt_for_claude.
  destruct (guidelines st); [reflexivity |].
  destruct (notebook_cells st); [reflexivity |].
  apply strip_idempotent.
Qed.

(** X11.  With guidelines and a notebook loaded, the prompt begins with
    the fixed sentence of the preamble and ends with the line
    [--- END ANALYSIS INSTRUCTIONS ---] without a newline after it,
    whatever text the cells and the guidelines hold. *)
Theorem prompt_has_fixed_start_and_end (args : list PyObj)
    (kwargs : list (pystr * PyObj)) (st : State) :
  guidelines st <> [] -> notebook_cells st <> [] ->
  starts_with (lit "Below is the content of a Jupyter notebook.")
    (get_prompt_for_claude args kwargs st) = true
  /\ ends_with (lit "--- END ANALYSIS INSTRUCTIONS ---")
       (get_prompt_for_claude args kwargs st) = true.
Proof.
  intros Hg Hc; rewrite get_prompt_for_claude_parts by assumption.
  split.
  - assert (Hpre : PREAMBLE
                   = lit "Below is the content of a Jupyter notebook."
                       ++ skipn 43 PREAMBLE) by reflexivity.
    rewrite Hpre, <- app_assoc; apply starts_with_app.
  - assert (Hend : rstrip ANALYSIS_INSTRUCTIONS
                   = firstn 369 (rstrip ANALYSIS_INSTRUCTIONS)
                       ++ lit "--- END ANALYSIS INSTRUCTIONS ---")
      by reflexivity.
    rewrite Hend, !app_assoc; apply ends_with_app.
Qed.

Lemma prompt_has_fixed_start_and_end_witness :
  ends_with (lit "--- END ANALYSIS INSTRUCTIONS ---")
    (get_prompt_for_claude [] []
       (mkState [lit "Be clear"] [small_cell])) = true.
Proof.
  refine (proj2 (prompt_has_fixed_start_and_end [] []
                   (mkState [lit "Be clear"] [small_cell]) _ _));
    discriminate.
Defined.

(** X12.  The length of the prompt is the length of the assembled
    notebook content, plus the lengths of the guideline lines, plus 747
    characters of fixed text. *)
Theorem prompt_length (args : list PyObj) (kwargs : list (pystr * PyObj))
    (st : State) :
  guidelines st <> [] -> notebook_cells st <> [] ->
  len (get_prompt_for_claude args kwargs st)
  = 747 + len (final_notebook_content_str (notebook_cells st))
    + sum_len (numbered_guidelines 1 (guidelines st)).
Proof.
  intros Hg Hc; rewrite get_prompt_for_claude_parts by assumption.
  rewrite !len_app, len_concat.
  change (len PREAMBLE) with 226.
  change (len (rstrip ANALYSIS_INSTRUCTIONS)) with 402.
  change (len (lit "--- START NOTEBOOK CONTENT ---")) with 30.
  change (len (lit "--- END NOTEBOOK CONTENT ---")) with 28.
  change (len (lit "--- REVIEW GUIDELINES ---")) with 25.
  change (len (lit "--- END REVIEW GUIDELINES ---")) with 29.
  change (len [NL]) with 1; change (len [NL; NL]) with 2.
  lia.
Qed.

Lemma prompt_length_witness :
  len (get_prompt_for_claude [] [] (mkState [lit "Be clear"] [small_cell]))
  = 747 + len (final_notebook_content_str [small_cell])
    + sum_len (numbered_guidelines 1 [lit "Be clear"]).
Proof.
  apply (prompt_length [] [] (mkState [lit "Be clear"] [small_cell]));
    discriminate.
Defined.

(** ** Converting the cells of a parsed notebook *)

Lemma convert_cell_return (raw : NbCell) (cell : Cell) :
  convert_cell raw = Return cell <->
  exists t s,
    nb_cell_type raw = Some t /\ nb_source raw = Some (SourceStr s)
    /\ cell = mkCell t (strip s)
                (match nb_outputs raw with Some o => o | None => [] end).
Proof.
  unfold convert_cell, getattr, call_strip, bind.
  destruct (nb_cell_type raw) as [t |];
    destruct (nb_source raw) as [[s | e] |]; split; try discriminate;
    try (intros (t' & s' & Ht & Hs & _); discriminate).
  - intros [= <-]; now exists t, s.
  - intros (t' & s' & [= <-] & [= <-] & ->); reflexivity.
Qed.

Lemma convert_cell_raise (raw : NbCell) (e : pystr) :
  convert_cell raw = Raise e <->
  (nb_cell_type raw = None /\ e = lit "cell_type")
  \/ (nb_cell_type raw <> None /\ nb_source raw = None /\ e = lit "source")
  \/ (nb_cell_type raw <> None /\ nb_source raw = Some (SourceOther e)).
Proof.
  unfold convert_cell, getattr, call_strip, bind.
  destruct (nb_cell_type raw) as [t |];
    destruct (nb_source raw) as [[s | e'] |]; split;
    try discriminate; try (intros [= <-]);
    try (now left);
    try (right; left; repeat split; congruence);
    try (right; right; split; congruence);
    intros [[H1 H2] | [(H1 & H2 & H3) | (H1 & H2)]]; congruence.
Qed.

Lemma convert_cells_cons (raw : NbCell) (rest : list NbCell) :
  convert_cells (raw :: rest)
  = match convert_cell raw with
    | Raise e => Raise e
    | Return c =>
        match convert_cells rest with
        | Raise e => Raise e
        | Return cs => Return (c :: cs)
        end
    end.
Proof. reflexivity. Qed.

(** X13.  When the cells of a parsed notebook are converted, the stored
    list has one entry per cell, in order: the cell's type, its source
    with leading and trailing whitespace removed, and its outputs or the
    empty list when it has none.  Stripping a stored source again, as the
    prompt generator does, gives the stored source. *)
Theorem converted_cells_mirror_notebook (nb_cells : list NbCell)
    (cells : list Cell) :
  convert_cells nb_cells = Return cells ->
  Forall2
    (fun raw cell =>
       nb_cell_type raw = Some (type cell)
       /\ (exists s,
             nb_source raw = Some (SourceStr s) /\ source cell = strip s)
       /\ outputs cell
          = match nb_outputs raw with Some o => o | None => [] end
       /\ strip (source cell) = source cell)
    nb_cells cells.
Proof.
  revert cells; induction nb_cells as [| raw rest IH]; intros cells Hconv.
  - injection Hconv as <-; constructor.
  - rewrite convert_cells_cons in Hconv.
    destruct (convert_cell raw) as [c |] eqn:Ec; [| discriminate].
    destruct (convert_cells rest) as [cs |]; [| discriminate].
    injection Hconv as <-.
    constructor; [| now apply IH].
    apply convert_cell_return in Ec.
    destruct Ec as (t & s & Ht & Hs & ->); cbn [type source outputs].
    repeat split; try assumption.
    + now exists s.
    + apply strip_idempotent.
Qed.

Lemma converted_cells_mirror_notebook_witness :
  Forall2
    (fun raw cell =>
       nb_cell_type raw = Some (type cell)
       /\ (exists s,
             nb_source raw = Some (SourceStr s) /\ source cell = strip s)
       /\ outputs cell
          = match nb_outputs raw with Some o => o | None => [] end
       /\ strip (source cell) = source cell)
    [mkNbCell (Some (lit "markdown")) (Some (SourceStr (lit " # Title ")))
       None]
    [mkCell (lit "markdown") (lit "# Title") []].
Proof.
  apply (converted_cells_mirror_notebook
           [mkNbCell (Some (lit "markdown")) (Some (SourceStr (lit " # Title ")))
       None]).
  reflexivity.
Defined.

(** X14.  The conversion fails exactly when some cell has no type, has
    no source, or has a source that is not a string (null, say), on
    which [strip] cannot be called; no other shape of a cell makes it
    fail, missing outputs least of all. *)
Theorem conversion_fails_iff_attribute_missing (nb_cells : list NbCell) :
  (exists e, convert_cells nb_cells = Raise e)
  <-> Exists (fun raw =>
                nb_cell_type raw = None
                \/ nb_source raw = None
                \/ exists strip_error,
                     nb_source raw = Some (SourceOther strip_error))
        nb_cells.
Proof.
  induction nb_cells as [| raw rest IH].
  - split; [intros [e He]; discriminate | intros H; inversion H].
  - rewrite convert_cells_cons; split.
    + intros [e He].
      destruct (convert_cell raw) as [c |] eqn:Ec.
      * apply Exists_cons_tl, IH.
        destruct (convert_cells rest) as [cs | e']; [discriminate |].
        now exists e'.
      * apply Exists_cons_hd.
        apply convert_cell_raise in Ec.
        destruct Ec as [[H _] | [(_ & H & _) | (_ & H)]];
          [now left | now right; left | right; right; eexists; exact H].
    + intros Hex.
      destruct (convert_cell raw) as [c | e'] eqn:Ec; [| now exists e'].
      apply convert_cell_return in Ec.
      destruct Ec as (t & s & Ht & Hs & _).
      inversion Hex as [? ? [H | [H | [e H]]] | ? ? Hrest]; subst;
        try congruence.
      apply IH in Hrest; destruct Hrest as [e He].
      rewrite He; now exists e.
Qed.

(** A cell whose source is null: the conversion raises with the
    message of the failed [strip]. *)
Lemma null_source_fails_conversion :
  convert_cells
    [mkNbCell (Some (lit "code"))
       (Some (SourceOther (lit "'NoneType' object has no attribute 'strip'")))
       (Some [])]
  = Raise (lit "'NoneType' object has no attribute 'strip'").
Proof. reflexivity. Qed.

(** ** The notebook loaders *)

(** X15.  The file loader leaves the whole state as it was on every
    failure: when the file does not parse, and also when it parses but a
    cell cannot be converted. *)
Theorem load_notebook_failure_keeps_state
    (nbformat_read : pystr -> Exc (list NbCell))
    (path e : pystr) (st : State) :
  nbformat_read path = Raise e
  \/ (exists nb_cells,
        nbformat_read path = Return nb_cells
        /\ convert_cells nb_cells = Raise e) ->
  load_notebook nbformat_read path st
  = (lit "Error loading notebook: " ++ e, st).
Proof.
  unfold load_notebook, bind.
  intros [Hread | (nb_cells & Hread & Hconv)]; rewrite Hread;
    [reflexivity | now rewrite Hconv].
Qed.

Lemma load_notebook_failure_keeps_state_witness :
  snd (load_notebook
         (fun _ => Return [mkNbCell (Some (lit "code")) None None])
         (lit "nb.ipynb") (mkState [lit "Be clear"] [small_cell]))
  = mkState [lit "Be clear"] [small_cell].
Proof.
  rewrite (load_notebook_failure_keeps_state
             (fun _ => Return [mkNbCell (Some (lit "code")) None None])
             (lit "nb.ipynb") (lit "source")
             (mkState [lit "Be clear"] [small_cell])).
  - reflexivity.
  - right; eexists; split; reflexivity.
Defined.

(** X16.  The JSON-string loader, given a notebook that parses but has a
    cell that cannot be converted, returns the error message and leaves
    the cell list empty: the cells loaded before are lost, the
    guidelines are kept. *)
Theorem load_notebook_content_conversion_failure_clears
    (nbformat_reads : pystr -> Exc (list NbCell))
    (json_string e : pystr) (nb_cells : list NbCell) (st : State) :
  nbformat_reads json_string = Return nb_cells ->
  convert_cells nb_cells = Raise e ->
  load_notebook_content nbformat_reads json_string st
  = (lit "Failed to parse notebook JSON: " ++ e, mkState (guidelines st) []).
Proof.
  intros Hparse Hconv; unfold load_notebook_content.
  now rewrite Hparse, Hconv.
Qed.

Lemma load_notebook_content_conversion_failure_clears_witness :
  snd (load_notebook_content
         (fun _ => Return [mkNbCell (Some (lit "code")) None None])
         (lit "{}") (mkState [lit "Be clear"] [small_cell]))
  = mkState [lit "Be clear"] [].
Proof.
  rewrite (load_notebook_content_conversion_failure_clears
             (fun _ => Return [mkNbCell (Some (lit "code")) None None])
             (lit "{}") (lit "source")
             [mkNbCell (Some (lit "code")) None None]
             (mkState [lit "Be clear"] [small_cell]));
    reflexivity.
Defined.

(** X17.  On success the two notebook loaders leave the same state: the
    guidelines as they were and the converted cells in place of the old
    ones, none of which remains.  Their messages give the number of
    cells stored. *)
Theorem notebook_loaders_replace_cells
    (nbformat_read nbformat_reads : pystr -> Exc (list NbCell))
    (path json_string : pystr) (nb_cells : list NbCell)
    (cells : list Cell) (st : State) :
  nbformat_read path = Return nb_cells ->
  nbformat_reads json_string = Return nb_cells ->
  convert_cells nb_cells = Return cells ->
  load_notebook nbformat_read path st
  = (str_of_int (len cells) ++ lit " notebook cell(s) loaded.",
     mkState (guidelines st) cells)
  /\ load_notebook_content nbformat_reads json_string st
     = (str_of_int (len cells)
          ++ lit " notebook cell(s) loaded from pasted content.",
        mkState (guidelines st) cells).
Proof.
  intros Hread Hreads Hconv; unfold load_notebook, load_notebook_content, bind.
  now rewrite Hread, Hreads, Hconv.
Qed.

Lemma notebook_loaders_replace_cells_witness :
  snd (load_notebook_content
         (fun _ => Return [mkNbCell (Some (lit "code")) (Some (SourceStr (lit "x"))) None])
         (lit "{}") (mkState [lit "Be clear"] [filling_cell; small_cell]))
  = mkState [lit "Be clear"] [small_cell].
Proof.
  rewrite (proj2 (notebook_loaders_replace_cells
             (fun _ => Return [mkNbCell (Some (lit "code")) (Some (SourceStr (lit "x"))) None])
             (fun _ => Return [mkNbCell (Some (lit "code")) (Some (SourceStr (lit "x"))) None])
             (lit "nb.ipynb") (lit "{}")
             [mkNbCell (Some (lit "code")) (Some (SourceStr (lit "x"))) None]
             [small_cell]
             (mkState [lit "Be clear"] [filling_cell; small_cell])
             eq_refl eq_refl eq_refl)).
  reflexivity.
Defined.

(** X18.  A notebook that parses but has a cell that cannot be
    converted: loaded from a file, the prompt generator answers after
    the failed load as it did before; pasted as JSON, the generator
    reports that no notebook is loaded, although one was. *)
Theorem failed_conversion_then_prompt
    (nbformat_read nbformat_reads : pystr -> Exc (list NbCell))
    (path json_string e : pystr) (nb_cells : list NbCell)
    (args : list PyObj) (kwargs : list (pystr * PyObj)) (st : State) :
  nbformat_read path = Return nb_cells ->
  nbformat_reads json_string = Return nb_cells ->
  convert_cells nb_cells = Raise e ->
  guidelines st <> [] ->
  get_prompt_for_claude args kwargs
    (snd (load_notebook nbformat_read path st))
  = get_prompt_for_claude args kwargs st
  /\ get_prompt_for_claude args kwargs
       (snd (load_notebook_content nbformat_reads json_string st))
     = lit "No notebook loaded. Use `load_notebook()` or `load_notebook_content()` first.".
Proof.
  intros Hread Hreads Hconv Hg.
  unfold load_notebook, load_notebook_content, bind.
  rewrite Hread, Hreads, Hconv; cbn [snd]; split; [reflexivity |].
  unfold get_prompt_for_claude; cbn [guidelines notebook_cells].
  destruct (guidelines st); [congruence | reflexivity].
Qed.

Lemma failed_conversion_then_prompt_witness :
  get_prompt_for_claude [] []
    (snd (load_notebook_content
            (fun _ => Return [mkNbCell (Some (lit "code")) None None])
            (lit "{}") (mkState [lit "Be clear"] [small_cell])))
  = NO_NOTEBOOK.
Proof.
  refine (proj2 (failed_conversion_then_prompt
            (fun _ => Return [mkNbCell (Some (lit "code")) None None])
            (fun _ => Return [mkNbCell (Some (lit "code")) None None])
            (lit "nb.ipynb") (lit "{}") (lit "source")
            [mkNbCell (Some (lit "code")) None None] [] []
            (mkState [lit "Be clear"] [small_cell]) eq_refl eq_refl eq_refl _)).
  discriminate.
Defined.

(** X19.  Loading a notebook that has no cell succeeds with the message
    [0 notebook cell(s) loaded from pasted content.], and the prompt
    generator then reports that no notebook is loaded. *)
Theorem empty_notebook_loads_but_is_not_a_notebook
    (nbformat_reads : pystr -> Exc (list NbCell)) (json_string : pystr)
    (args : list PyObj) (kwargs : list (pystr * PyObj)) (st : State) :
  nbformat_reads json_string = Return [] ->
  guidelines st <> [] ->
  fst (load_notebook_content nbformat_reads json_string st)
  = lit "0 notebook cell(s) loaded from pasted content."
  /\ get_prompt_for_claude args kwargs
       (snd (load_notebook_content nbformat_reads json_string st))
     = lit "No notebook loaded. Use `load_notebook()` or `load_notebook_content()` first.".
Proof.
  intros Hreads Hg; unfold load_notebook_content.
  rewrite Hreads; cbn [convert_cells fst snd]; split; [reflexivity |].
  unfold get_prompt_for_claude; cbn [guidelines notebook_cells app].
  destruct (guidelines st); [congruence | reflexivity].
Qed.

Lemma empty_notebook_loads_but_is_not_a_notebook_witness :
  fst (load_notebook_content (fun _ => Return []) (lit "{}")
         (mkState [lit "Be clear"] [small_cell]))
  = lit "0 notebook cell(s) loaded from pasted content.".
Proof.
  refine (proj1 (empty_notebook_loads_but_is_not_a_notebook
                   (fun _ => Return []) (lit "{}") [] []
                   (mkState [lit "Be clear"] [small_cell]) eq_refl _)).
  discriminate.
Defined.

(** ** The guideline loader *)

Lemma dropna_filter (column : list (option pystr)) :
  map Some (dropna column)
  = filter (fun v => match v with Some _ => true | None => false end) column.
Proof.
  induction column as [| [v |] rest IH]; cbn [dropna map filter];
    [reflexivity | now rewrite IH | exact IH].
Qed.

Lemma in_dropna (column : list (option pystr)) (g : pystr) :
  In g (dropna column) <-> In (Some g) column.
Proof.
  induction column as [| [v |] rest IH]; cbn [dropna In]; [tauto | |].
  - rewrite IH; split; intros [H | H]; auto; left; congruence.
  - rewrite IH; split; [auto | intros [H | H]; [discriminate | exact H]].
Qed.

Lemma dropna_all_missing (column : list (option pystr)) :
  Forall (fun v => v = None) column -> dropna column = [].
Proof.
  induction 1 as [| v rest Hv _ IH]; [reflexivity |].
  subst v; exact IH.
Qed.

(** X20.  When reading the file or taking its first column raises, the
    guideline loader returns the error message and the state is the one
    before the call: the guidelines loaded earlier stay. *)
Theorem load_guidelines_failure_keeps_state (DataFrame : Type)
    (read_excel read_csv : pystr -> Exc DataFrame)
    (first_column : DataFrame -> Exc (list (option pystr)))
    (path e : pystr) (st : State) :
  read_first_column DataFrame read_excel read_csv first_column path = Raise e ->
  load_guidelines DataFrame read_excel read_csv first_column path st
  = (lit "Error loading guidelines: " ++ e, st).
Proof.
  intros Hraise; unfold load_guidelines; now rewrite Hraise.
Qed.

Lemma load_guidelines_failure_keeps_state_witness :
  snd (load_guidelines (list (option pystr))
         (fun _ => Raise (lit "No such file")) (fun _ => Return [])
         Return (lit "g.xlsx") (mkState [lit "Be clear"] [small_cell]))
  = mkState [lit "Be clear"] [small_cell].
Proof.
  rewrite (load_guidelines_failure_keeps_state (list (option pystr))
             (fun _ => Raise (lit "No such file")) (fun _ => Return [])
             Return (lit "g.xlsx") (lit "No such file")
             (mkState [lit "Be clear"] [small_cell]));
    reflexivity.
Defined.

(** X21.  On success the guideline loader replaces the guidelines by
    the entries of the first column that are not missing, all of them
    and in their order, whitespace-only entries included; the cells stay
    as they were, and the message gives the number of guidelines
    stored. *)
Theorem load_guidelines_stores_present_entries (DataFrame : Type)
    (read_excel read_csv : pystr -> Exc DataFrame)
    (first_column : DataFrame -> Exc (list (option pystr)))
    (path : pystr) (column : list (option pystr)) (st : State) :
  read_first_column DataFrame read_excel read_csv first_column path
  = Return column ->
  exists gs,
    load_guidelines DataFrame read_excel read_csv first_column path st
    = (str_of_int (len gs) ++ lit " guideline(s) loaded.",
       mkState gs (notebook_cells st))
    /\ map Some gs
       = filter (fun v => match v with Some _ => true | None => false end)
           column
    /\ (forall g, In g gs <-> In (Some g) column).
Proof.
  intros Hread; exists (dropna column); split; [| split].
  - unfold load_guidelines; now rewrite Hread.
  - apply dropna_filter.
  - intros g; apply in_dropna.
Qed.

Lemma load_guidelines_stores_present_entries_witness :
  exists gs,
    load_guidelines (list (option pystr))
      (fun _ => Return []) (fun _ => Return [Some (lit "Be clear"); None; Some (lit " ")])
      Return (lit "g.csv") (mkState [lit "Old"] [small_cell])
    = (str_of_int (len gs) ++ lit " guideline(s) loaded.",
       mkState gs [small_cell])
    /\ map Some gs
       = filter (fun v => match v with Some _ => true | None => false end)
           [Some (lit "Be clear"); None; Some (lit " ")]
    /\ (forall g, In g gs
                  <-> In (Some g) [Some (lit "Be clear"); None; Some (lit " ")]).
Proof.
  apply (load_guidelines_stores_present_entries (list (option pystr))
           (fun _ => Return [])
           (fun _ => Return [Some (lit "Be clear"); None; Some (lit " ")])
           Return (lit "g.csv")
           [Some (lit "Be clear"); None; Some (lit " ")]
           (mkState [lit "Old"] [small_cell])).
  reflexivity.
Defined.

(** X22.  A path that ends with [.xlsx] is read by the spreadsheet
    reader alone, and any other path by the CSV reader alone: the other
    reader has no influence on the result. *)
Theorem load_guidelines_reader_by_suffix (DataFrame : Type)
    (read_excel read_excel' read_csv read_csv' : pystr -> Exc DataFrame)
    (first_column : DataFrame -> Exc (list (option pystr)))
    (path : pystr) (st : State) :
  ((exists stem, path = stem ++ lit ".xlsx") ->
   load_guidelines DataFrame read_excel read_csv first_column path st
   = load_guidelines DataFrame read_excel read_csv' first_column path st)
  /\ (ends_with (lit ".xlsx") path = false ->
      load_guidelines DataFrame read_excel read_csv first_column path st
      = load_guidelines DataFrame read_excel' read_csv first_column path st).
Proof.
  unfold load_guidelines, read_first_column; split.
  - intros [stem ->]; now rewrite ends_with_app.
  - intros ->; reflexivity.
Qed.

Lemma load_guidelines_reader_by_suffix_witness :
  load_guidelines (list (option pystr))
    (fun _ => Return [Some (lit "Be clear")]) (fun _ => Return [])
    Return (lit "g.xlsx") (mkState [] [])
  = load_guidelines (list (option pystr))
      (fun _ => Return [Some (lit "Be clear")]) (fun _ => Raise (lit "bad"))
      Return (lit "g.xlsx") (mkState [] [])
  /\ load_guidelines (list (option pystr))
       (fun _ => Return []) (fun _ => Return [Some (lit "Be clear")])
       Return (lit "g.XLSX") (mkState [] [])
     = load_guidelines (list (option pystr))
         (fun _ => Raise (lit "bad")) (fun _ => Return [Some (lit "Be clear")])
         Return (lit "g.XLSX") (mkState [] []).
Proof.
  split.
  - refine (proj1 (load_guidelines_reader_by_suffix (list (option pystr))
                     _ (fun _ => Return []) _ _ Return (lit "g.xlsx")
                     (mkState [] [])) _).
    now exists (lit "g").
  - refine (proj2 (load_guidelines_reader_by_suffix (list (option pystr))
                     _ _ _ (fun _ => Return []) Return (lit "g.XLSX")
                     (mkState [] [])) _).
    reflexivity.
Defined.

(** X23.  A file whose first column has no entry, or only missing
    ones, loads with the message [0 guideline(s) loaded.], and the
    prompt generator then reports that no guidelines are loaded, whatever
    notebook is there. *)
Theorem empty_guidelines_load_but_are_not_guidelines (DataFrame : Type)
    (read_excel read_csv : pystr -> Exc DataFrame)
    (first_column : DataFrame -> Exc (list (option pystr)))
    (path : pystr) (column : list (option pystr))
    (args : list PyObj) (kwargs : list (pystr * PyObj)) (st : State) :
  read_first_column DataFrame read_excel read_csv first_column path
  = Return column ->
  Forall (fun v => v = None) column ->
  fst (load_guidelines DataFrame read_excel read_csv first_column path st)
  = lit "0 guideline(s) loaded."
  /\ get_prompt_for_claude args kwargs
       (snd (load_guidelines DataFrame read_excel read_csv first_column
               path st))
     = lit "No guidelines loaded. Use `load_guidelines()` first.".
Proof.
  intros Hread Hmissing; unfold load_guidelines; rewrite Hread.
  cbn [fst snd guidelines].
  rewrite (dropna_all_missing column Hmissing); split; reflexivity.
Qed.

Lemma empty_guidelines_load_but_are_not_guidelines_witness :
  get_prompt_for_claude [] []
    (snd (load_guidelines (list (option pystr))
            (fun _ => Return []) (fun _ => Return [None; None])
            Return (lit "g.csv") (mkState [lit "Old"] [small_cell])))
  = NO_GUIDELINES.
Proof.
  refine (proj2 (empty_guidelines_load_but_are_not_guidelines
            (list (option pystr)) (fun _ => Return [])
            (fun _ => Return [None; None]) Return (lit "g.csv")
            [None; None] [] [] (mkState [lit "Old"] [small_cell])
            eq_refl _)).
  repeat constructor.
Defined.

(** X24.  No loader touches the other slot of the state, whether it
    succeeds or fails: the notebook loaders keep the guidelines, the
    guideline loader keeps the cells. *)
Theorem loaders_keep_the_other_slot (DataFrame : Type)
    (read_excel read_csv : pystr -> Exc DataFrame)
    (first_column : DataFrame -> Exc (list (option pystr)))
    (nbformat_read nbformat_reads : pystr -> Exc (list NbCell))
    (path : pystr) (st : State) :
  guidelines (snd (load_notebook nbformat_read path st)) = guidelines st
  /\ guidelines (snd (load_notebook_content nbformat_reads path st))
     = guidelines st
  /\ notebook_cells
       (snd (load_guidelines DataFrame read_excel read_csv first_column
               path st))
     = notebook_cells st.
Proof.
  unfold load_notebook, load_notebook_content, load_guidelines, bind.
  repeat split.
  - destruct (nbformat_read path) as [nb |]; [| reflexivity].
    destruct (convert_cells nb); reflexivity.
  - destruct (nbformat_reads path) as [nb |]; [| reflexivity].
    destruct (convert_cells nb); reflexivity.
  - destruct (read_first_column _ _ _ _ path); reflexivity.
Qed.

(** ** Blocks and cells, position by position *)

Lemma nth_error_full_blocks_inv (cells : list Cell) (idx : Z) (k : nat)
    (block : pystr) :
  nth_error (full_blocks idx cells) k = Some block ->
  exists cell,
    nth_error cells k = Some cell
    /\ block = full_block (idx + Z.of_nat k) cell.
Proof.
  revert idx k; induction cells as [| c rest IH]; intros idx k Hk.
  - destruct k; discriminate.
  - destruct k as [| k]; cbn [nth_error full_blocks] in *.
    + injection Hk as <-; exists c; now rewrite Z.add_0_r.
    + destruct (IH (idx + 1) k Hk) as (cell & Hcell & ->).
      exists cell; split; [exact Hcell | f_equal; lia].
Qed.

(** X25.  The block at position [k] of the assembled content always
    begins with the header of the cell at position [k] of the notebook,
    number [k+1]: blocks are never reordered or renumbered, and this
    holds for the last block too when it is a skip block. *)
Theorem block_starts_with_header_of_its_cell (cells : list Cell) (k : nat)
    (block : pystr) :
  nth_error (trimmed_cells_content cells) k = Some block ->
  exists cell,
    nth_error cells k = Some cell
    /\ starts_with (cell_header (Z.of_nat k) cell) block = true.
Proof.
  unfold trimmed_cells_content.
  destruct (assemble_loop_shape cells 0 [] 0) as
    [[_ Heq] | (pre & cell & post & Hcells & _ & _ & Heq)];
    [unfold MAX_TOTAL_NOTEBOOK_CHARS; lia | |];
    rewrite Heq; cbn [app]; intros Hk.
  - destruct (nth_error_full_blocks_inv cells 0 k block Hk)
      as (c & Hc & ->).
    exists c; split; [exact Hc |].
    unfold full_block; rewrite Z.add_0_l; apply starts_with_app.
  - assert (Hlen : List.length (full_blocks 0 pre) = List.length pre).
    { pose proof (len_full_blocks pre 0) as H; unfold len in H; lia. }
    destruct (Nat.lt_ge_cases k (List.length pre)) as [Hlt | Hge].
    + rewrite nth_error_app1 in Hk by lia.
      destruct (nth_error_full_blocks_inv pre 0 k block Hk)
        as (c & Hc & ->).
      exists c; split.
      * rewrite Hcells, nth_error_app1 by lia; exact Hc.
      * unfold full_block; rewrite Z.add_0_l; apply starts_with_app.
    + rewrite nth_error_app2 in Hk by lia.
      rewrite Hlen in Hk.
      destruct (k - List.length pre)%nat as [| j] eqn:Ej;
        [| destruct j; discriminate].
      injection Hk as <-.
      assert (k = List.length pre) by lia; subst k.
      exists cell; split.
      * rewrite Hcells, nth_error_app2, Nat.sub_diag by lia; reflexivity.
      * unfold skipped_block, len; rewrite ?Z.add_0_l.
        apply starts_with_app.
Qed.

Lemma block_starts_with_header_of_its_cell_witness :
  exists cell,
    nth_error [small_cell; small_cell] 1 = Some cell
    /\ starts_with (cell_header (Z.of_nat 1) cell)
         (full_block 1 small_cell) = true.
Proof.
  apply (block_starts_with_header_of_its_cell [small_cell; small_cell] 1).
  reflexivity.
Defined.

(** ** Outputs that are not shown *)

Lemma render_silent_output (output : Output) :
  silent_output output = true -> render_output output = [].
Proof.
  destruct output as [text | data | ename evalue | data];
    cbn [silent_output render_output]; try discriminate; [| reflexivity].
  destruct (dict_get (lit "text/plain") data); [discriminate |].
  destruct (dict_get (lit "image/png") data); [discriminate | reflexivity].
Qed.

(** X26.  A display_data output, and a result output with neither plain
    text nor a PNG image, leave no trace in the rendered cell: taking
    them out of the outputs gives the same content, the other outputs
    keeping their order. *)
Theorem silent_outputs_leave_no_trace (t s : pystr) (outs : list Output) :
  cell_content (mkCell t s outs)
  = cell_content
      (mkCell t s (filter (fun output => negb (silent_output output)) outs)).
Proof.
  unfold cell_content, output_text_parts, cell_parts.
  cbn [type source outputs].
  destruct (str_eqb t (lit "code")); [| reflexivity].
  do 2 f_equal.
  induction outs as [| o outs IH]; cbn [filter flat_map]; [reflexivity |].
  destruct (silent_output o) eqn:Eo; cbn [negb flat_map].
  - now rewrite (render_silent_output o Eo).
  - now rewrite IH.
Qed.
